(** * ML pipeline builder: the session state machine of [backend/app/main.py]

    A shallow embedding of the FastAPI handlers that drive the pipeline
    upload -> preprocess -> split -> train -> results over one shared,
    in-memory [session_state] dictionary.

    The handlers are translated one by one.  Every handler is a computation
    in a small state-and-exception monad: an assignment to
    [session_state[...]] is a state update that survives a later [raise],
    exactly as in Python.  The numerical libraries (pandas readers,
    scikit-learn scalers, splitters and estimators, the plotting code) are
    collaborators: they are the fields of a [Library] record over which the
    handlers are parameterised, and a field returns [None] where the Python
    call raises. *)

From Stdlib Require Import String Ascii List ZArith Bool Floats Lia.
From Stdlib Require Import Strings.Byte.
From Stdlib Require Import DecimalString.
Import ListNotations.

Set Warnings "-inexact-float,-register-all".
Local Open Scope list_scope.
Local Open Scope string_scope.

(** ** Strings *)

Module Str.

(** [str.lower()] on the ASCII letters. *)
Definition lower_ascii (c : ascii) : ascii :=
  let n := nat_of_ascii c in
  if (65 <=? n)%nat && (n <=? 90)%nat then ascii_of_nat (n + 32) else c.

Fixpoint lower (s : string) : string :=
  match s with
  | EmptyString => EmptyString
  | String c r => String (lower_ascii c) (lower r)
  end.

(** [s.endswith(suffix)]. *)
Definition endswith (s suffix : string) : bool :=
  let n := String.length s in
  let m := String.length suffix in
  (m <=? n)%nat && String.eqb (substring (n - m) m s) suffix.

(** [str(n)] for a non-negative integer. *)
Definition of_nat (n : nat) : string := NilZero.string_of_uint (Nat.to_uint n).

(** [", ".join(parts)]. *)
Fixpoint join (sep : string) (parts : list string) : string :=
  match parts with
  | [] => EmptyString
  | [p] => p
  | p :: rest => p ++ sep ++ join sep rest
  end.

(** The characters [repr] treats specially. *)
Definition quote : ascii := ascii_of_nat 39.
Definition dquote : ascii := ascii_of_nat 34.
Definition backslash : ascii := ascii_of_nat 92.

Fixpoint contains (c : ascii) (s : string) : bool :=
  match s with
  | EmptyString => false
  | String x r => Ascii.eqb x c || contains c r
  end.

Definition hex_digit (n : nat) : ascii :=
  ascii_of_nat (if (n <? 10)%nat then 48 + n else 87 + n).

(** One character inside [repr(s)], between quotes [q]: the backslash and
    the quote are escaped, control characters are written [\n], [\r],
    [\t] or [\xNN]; every other byte is kept. *)
Definition escape (q c : ascii) : string :=
  let n := nat_of_ascii c in
  if Ascii.eqb c backslash then String backslash (String backslash EmptyString)
  else if Ascii.eqb c q then String backslash (String q EmptyString)
  else if (n =? 10)%nat then String backslash "n"
  else if (n =? 13)%nat then String backslash "r"
  else if (n =? 9)%nat then String backslash "t"
  else if (n <? 32)%nat || (n =? 127)%nat
       then String backslash
              (String "x" (String (hex_digit (n / 16))
                             (String (hex_digit (n mod 16)) EmptyString)))
  else String c EmptyString.

Fixpoint escape_all (q : ascii) (s : string) : string :=
  match s with
  | EmptyString => EmptyString
  | String c r => escape q c ++ escape_all q r
  end.

(** [repr(s)] for a string: single quotes, unless the string holds a
    single quote and no double quote. *)
Definition repr (s : string) : string :=
  let q := if contains quote s && negb (contains dquote s) then dquote else quote in
  String q (escape_all q s ++ String q EmptyString).

(** [repr] of a list of strings, as an f-string prints [request.columns]. *)
Definition repr_list (l : list string) : string :=
  "[" ++ join ", " (map repr l) ++ "]".

(** [x in l] for strings. *)
Definition mem (x : string) (l : list string) : bool :=
  existsb (String.eqb x) l.

End Str.

(** ** Tables *)

(** The column types that pandas infers from a CSV or Excel file. *)
Inductive Dtype := int64 | float64 | bool_ | object_ | datetime64.

(** [np.issubdtype(dtype, np.number)]: integers and floats are numbers,
    booleans, objects and timestamps are not. *)
Definition is_number (d : Dtype) : bool :=
  match d with
  | int64 | float64 => true
  | bool_ | object_ | datetime64 => false
  end.

(** [dtype == 'float64']. *)
Definition is_float64 (d : Dtype) : bool :=
  match d with float64 => true | _ => false end.

(** [dtype == 'object']. *)
Definition is_object (d : Dtype) : bool :=
  match d with object_ => true | _ => false end.

(** [str(dtype)]. *)
Definition dtype_str (d : Dtype) : string :=
  match d with
  | int64 => "int64"
  | float64 => "float64"
  | bool_ => "bool"
  | object_ => "object"
  | datetime64 => "datetime64[ns]"
  end.

(** One entry of a column.  A float is a binary64 value and so may be
    [nan] or an infinity; [CNone] is Python's [None]. *)
Inductive cell :=
| CInt (z : Z)
| CFloat (f : float)
| CStr (s : string)
| CBool (b : bool)
| CNone.

(** [pd.isna] on one entry. *)
Definition isna (c : cell) : bool :=
  match c with
  | CFloat f => PrimFloat.is_nan f
  | CNone => true
  | _ => false
  end.

(** [==] on entries of the same Python type. *)
Definition cell_eqb (a b : cell) : bool :=
  match a, b with
  | CInt x, CInt y => Z.eqb x y
  | CFloat x, CFloat y => PrimFloat.eqb x y
  | CStr x, CStr y => String.eqb x y
  | CBool x, CBool y => Bool.eqb x y
  | CNone, CNone => true
  | _, _ => false
  end.

(** A named, typed column. *)
Record Series := mkSeries {
  name : string;
  dtype : Dtype;
  values : list cell
}.

(** A data frame is its columns, in order.  Tables are values here, so
    [df.copy()] is the identity; no handler changes a table in place that it
    did not copy first. *)
Definition DataFrame := list Series.

Module DF.

(** [df.columns.tolist()]. *)
Definition columns (df : DataFrame) : list string := map name df.

(** [len(df)]: the number of rows. *)
Definition len (df : DataFrame) : nat :=
  match df with
  | [] => 0
  | s :: _ => length (values s)
  end.

(** [df.empty]: some axis has length zero. *)
Definition empty (df : DataFrame) : bool :=
  (length df =? 0)%nat || (len df =? 0)%nat.

(** [df[col]] for a label that is present. *)
Definition getitem (df : DataFrame) (col : string) : option Series :=
  find (fun s => String.eqb (name s) col) df.

(** [df[cols]] for a list of labels. *)
Fixpoint select (df : DataFrame) (cols : list string) : option DataFrame :=
  match cols with
  | [] => Some []
  | c :: rest =>
      match getitem df c, select df rest with
      | Some s, Some r => Some (s :: r)
      | _, _ => None
      end
  end.

(** [df.drop(columns=[col])]. *)
Definition drop (df : DataFrame) (col : string) : DataFrame :=
  filter (fun s => negb (String.eqb (name s) col)) df.

(** [df.head(n)]. *)
Definition head (n : nat) (df : DataFrame) : DataFrame :=
  map (fun s => mkSeries (name s) (dtype s) (firstn n (values s))) df.

(** Entry-wise map, keeping names and types. *)
Definition map_cells (f : cell -> cell) (df : DataFrame) : DataFrame :=
  map (fun s => mkSeries (name s) (dtype s) (map f (values s))) df.

(** [df.replace([np.inf, -np.inf], np.nan)]. *)
Definition replace_inf (df : DataFrame) : DataFrame :=
  map_cells (fun c => match c with
                      | CFloat f => if PrimFloat.is_infinity f then CFloat nan else c
                      | _ => c
                      end) df.

(** [df.where(pd.notnull(df), None)]: a missing entry becomes [None],
    except in a float64 column, which cannot hold [None]: there pandas
    writes the [None] back as [nan], so the column is left as it is. *)
Definition where_notnull (df : DataFrame) : DataFrame :=
  map (fun s => if is_float64 (dtype s) then s
                else mkSeries (name s) (dtype s)
                       (map (fun c => if isna c then CNone else c) (values s))) df.

(** [df.values] has one dtype for all entries: float64 when every column
    is int64 or float64 and one of them is float64 (the integers are then
    converted to floats), the columns' own types otherwise. *)
Definition values_are_float64 (df : DataFrame) : bool :=
  forallb (fun s => is_number (dtype s)) df
  && existsb (fun s => is_float64 (dtype s)) df.

(** The rows of [df.values.tolist()], entry by entry. *)
Definition rows (df : DataFrame) : list (list cell) :=
  map (fun i => map (fun s => nth i (values s) CNone) df) (seq 0 (len df)).

(** [int(df.isna().sum().sum())]. *)
Definition nan_count (df : DataFrame) : nat :=
  list_sum (map (fun s => length (filter isna (values s))) df).

(** [df[col] = column] for one label: every column carrying the label is
    replaced by the new float column. *)
Definition setitem (df : DataFrame) (col : string) (vals : list float) : DataFrame :=
  map (fun s => if String.eqb (name s) col
                then mkSeries (name s) float64 (map CFloat vals)
                else s) df.

(** [df[cols] = array], the array given by its columns, left to right. *)
Fixpoint setitems (df : DataFrame) (cols : list string) (arr : list (list float))
  : DataFrame :=
  match cols, arr with
  | c :: cols', a :: arr' => setitems (setitem df c a) cols' arr'
  | _, _ => df
  end.

End DF.

(** ** [Series.unique] and [pd.factorize] *)

Module Factorize.

(** Two entries count as the same key when they are equal, or both are
    missing. *)
Definition same_key (a b : cell) : bool :=
  (isna a && isna b) || cell_eqb a b.

(** [Series.unique()]: the distinct entries in order of first appearance;
    missing entries are kept as one value. *)
Fixpoint unique_acc (seen : list cell) (l : list cell) : list cell :=
  match l with
  | [] => rev seen
  | c :: r =>
      if existsb (same_key c) seen then unique_acc seen r
      else unique_acc (c :: seen) r
  end.

Definition unique (l : list cell) : list cell := unique_acc [] l.

(** Position of the first entry of [l] equal to [c]. *)
Fixpoint index_of (c : cell) (l : list cell) : option nat :=
  match l with
  | [] => None
  | x :: r => if cell_eqb c x then Some 0%nat
              else option_map S (index_of c r)
  end.

(** [pd.factorize(values)] with its default sentinel: [uniques] are the
    distinct non-missing entries met so far, in first-seen order; an entry
    gets the position of its value in [uniques], a missing entry gets -1. *)
Fixpoint codes_acc (uniques : list cell) (l : list cell) : list Z :=
  match l with
  | [] => []
  | c :: r =>
      if isna c then (-1)%Z :: codes_acc uniques r
      else match index_of c uniques with
           | Some i => Z.of_nat i :: codes_acc uniques r
           | None => Z.of_nat (length uniques) :: codes_acc (uniques ++ [c])%list r
           end
  end.

Definition codes (l : list cell) : list Z := codes_acc [] l.

(** [pd.factorize(col)[0]] stored back as a column. *)
Definition encode (s : Series) : Series :=
  mkSeries (name s) int64 (map CInt (codes (values s))).

(** [pd.factorize(values)[1]]: the distinct non-missing entries, in the
    order in which they are first met. *)
Fixpoint uniques_acc (uniques : list cell) (l : list cell) : list cell :=
  match l with
  | [] => uniques
  | c :: r =>
      if isna c then uniques_acc uniques r
      else match index_of c uniques with
           | Some _ => uniques_acc uniques r
           | None => uniques_acc (uniques ++ [c])%list r
           end
  end.

Definition uniques (l : list cell) : list cell := uniques_acc [] l.

(** The code of an entry, looked up in the table of distinct values. *)
Definition code_in (table : list cell) (c : cell) : Z :=
  if isna c then (-1)%Z
  else match index_of c table with
       | Some i => Z.of_nat i
       | None => (-1)%Z
       end.

End Factorize.

(** ** JSON bodies *)

(** The content handed to [JSONResponse].  [JFloatOfInt z] is the float
    [float(z)] of an int64 [z], which is always finite. *)
Inductive json :=
| JNull
| JBool (b : bool)
| JInt (z : Z)
| JFloat (f : float)
| JFloatOfInt (z : Z)
| JStr (s : string)
| JList (l : list json)
| JDict (l : list (string * json)).

Module Json.

(** [json.dumps(content, allow_nan=False)] accepts the content: no float
    in it is [nan] or an infinity. *)
Fixpoint compliant (j : json) : bool :=
  match j with
  | JFloat f => PrimFloat.is_finite f
  | JList l => forallb compliant l
  | JDict l => forallb (fun kv => compliant (snd kv)) l
  | _ => true
  end.

(** [d[key]] on a JSON object. *)
Definition get (key : string) (j : json) : option json :=
  match j with
  | JDict l => option_map snd (find (fun kv => String.eqb (fst kv) key) l)
  | _ => None
  end.

Definition of_cell (c : cell) : json :=
  match c with
  | CInt z => JInt z
  | CFloat f => JFloat f
  | CStr s => JStr s
  | CBool b => JBool b
  | CNone => JNull
  end.

(** An entry of [df.values.tolist()]: in a float64 array an integer has
    become a float. *)
Definition of_value (as_float64 : bool) (c : cell) : json :=
  match c with
  | CInt z => if as_float64 then JFloatOfInt z else JInt z
  | _ => of_cell c
  end.

Definition of_nat (n : nat) : json := JInt (Z.of_nat n).

Definition strs (l : list string) : json := JList (map JStr l).

(** A value that may be [None]. *)
Definition opt {A} (f : A -> json) (o : option A) : json :=
  match o with Some a => f a | None => JNull end.

End Json.

(** Python's [int(x)] on a float: truncation towards zero; [None] where
    Python raises (on [nan] and the infinities). *)
Definition int_of_float (f : float) : option Z :=
  match Prim2SF f with
  | S754_zero _ => Some 0%Z
  | S754_finite sgn m e =>
      let a := if (e <? 0)%Z then Z.shiftr (Zpos m) (- e) else Z.shiftl (Zpos m) e in
      Some (if sgn then (- a)%Z else a)
  | S754_infinity _ | S754_nan => None
  end.

(** [str(z)] for an integer. *)
Definition str_of_Z (z : Z) : string := NilZero.string_of_int (Z.to_int z).

(** [df_to_json(df)] with its default [max_rows = 100]. *)
Definition df_to_json (df : DataFrame) : json :=
  let preview_df := DF.head 100 df in
  let preview_df := DF.replace_inf preview_df in
  let preview_df := DF.where_notnull preview_df in
  JDict [ ("columns", Json.strs (DF.columns df));
          ("data",
           JList (map (fun r => JList (map (Json.of_value
                                              (DF.values_are_float64 preview_df)) r))
                      (DF.rows preview_df)));
          ("dtypes", JDict (map (fun s => (name s, JStr (dtype_str (dtype s)))) df));
          ("total_rows", Json.of_nat (DF.len df));
          ("preview_rows", Json.of_nat (DF.len preview_df)) ].

(** [df.dtypes.astype(str).to_dict()]. *)
Definition dtypes_dict (df : DataFrame) : json :=
  JDict (map (fun s => (name s, JStr (dtype_str (dtype s)))) df).

(** ** Exceptions *)

(** Where an exception other than [HTTPException] comes from. *)
Inductive origin := pandas | sklearn | matplotlib | json_dumps | builtins.

(** What a handler can raise.  Every [HTTPException] of the source has
    [status_code=400]; it is identified by its [detail], one constructor per
    [raise] site.  The handlers' [except Exception as e] clauses put
    [str(e)] into the new detail, so a detail can hold the exception it
    wraps. *)
Inductive exn :=
| Exception (o : origin)
| HTTPException (d : detail)
with detail :=
| InvalidFileType
| FileEmpty
| TooFewColumns
| ErrorProcessingFile (e : exn)
| NoDatasetUploaded
| InvalidColumns (invalid available : list string)
| NotNumeric (cols : list string)
| InvalidMethod
| ErrorDuringPreprocessing (e : exn)
| NoDataset
| TargetNotFound (target : string) (available : list string)
| TestSizeOutOfRange
| ErrorDuringSplit (e : exn)
| DataNotSplit
| InvalidModelType
| ErrorDuringTraining (e : exn)
| NoModelTrained
| ErrorGeneratingResults (e : exn).

(** The three kinds of failure the specification distinguishes. *)
Inductive error_kind := ValidationError | PreconditionError | OperationError.

(** Kind of a detail raised directly: bad input is a validation error, a
    missing predecessor stage a precondition error, a re-raised failure an
    operation error. *)
Definition raised_kind (d : detail) : error_kind :=
  match d with
  | InvalidFileType | FileEmpty | TooFewColumns
  | InvalidColumns _ _ | NotNumeric _ | InvalidMethod
  | TargetNotFound _ _ | TestSizeOutOfRange | InvalidModelType => ValidationError
  | NoDatasetUploaded | NoDataset | DataNotSplit | NoModelTrained => PreconditionError
  | ErrorProcessingFile _ | ErrorDuringPreprocessing _ | ErrorDuringSplit _
  | ErrorDuringTraining _ | ErrorGeneratingResults _ => OperationError
  end.

(** Kind of any detail: a re-raised [HTTPException] keeps the kind of the
    exception it wraps. *)
Definition kind_of (d : detail) : error_kind :=
  match d with
  | ErrorProcessingFile (HTTPException d')
  | ErrorDuringPreprocessing (HTTPException d')
  | ErrorDuringSplit (HTTPException d')
  | ErrorDuringTraining (HTTPException d')
  | ErrorGeneratingResults (HTTPException d') => raised_kind d'
  | _ => raised_kind d
  end.

(** ** Request bodies and estimators *)

Record PreprocessRequest := mkPreprocessRequest {
  pp_columns : list string;
  pp_method : string
}.

Record SplitRequest := mkSplitRequest {
  sp_target_column : string;
  sp_test_size : float;
  sp_random_state : Z
}.

Record TrainRequest := mkTrainRequest {
  tr_model_type : string
}.

Inductive Scaler := StandardScaler | MinMaxScaler.

Inductive Estimator := LogisticRegression | DecisionTreeClassifier.

(** ** The session and the handler monad *)

Section Handlers.

(** The fitted parameters of an estimator, opaque to the handlers. *)
Variable Params : Type.

(** A fitted model: [isinstance] tells its class, the rest is opaque. *)
Record Model := mkModel {
  estimator : Estimator;
  params : Params
}.

(** The [session_state] dictionary: one field per key. *)
Record SessionState := mkSession {
  original_df : option DataFrame;
  processed_df : option DataFrame;
  X_train : option DataFrame;
  X_test : option DataFrame;
  y_train : option Series;
  y_test : option Series;
  target_column : option string;
  feature_columns : option (list string);
  model : option Model;
  model_name : option string;
  transformations_applied : list string
}.

(** The dictionary the module starts with, and [reset_pipeline] restores. *)
Definition initial_state : SessionState :=
  mkSession None None None None None None None None None None [].

(** The outcome of running a piece of a handler. *)
Inductive result (A : Type) :=
| Ok (a : A)
| Raise (e : exn).
Arguments Ok {A} a.
Arguments Raise {A} e.

(** A handler body: it reads and writes the session and returns or
    raises; the session it leaves behind is kept in both cases. *)
Definition handler (A : Type) : Type := SessionState -> result A * SessionState.

Definition ret {A} (a : A) : handler A := fun s => (Ok a, s).

Definition bind {A B} (c : handler A) (k : A -> handler B) : handler B :=
  fun s => match c s with
           | (Ok a, s') => k a s'
           | (Raise e, s') => (Raise e, s')
           end.

Definition raise {A} (e : exn) : handler A := fun s => (Raise e, s).

(** [session_state[key]] *)
Definition gets {A} (key : SessionState -> A) : handler A := fun s => (Ok (key s), s).

(** [session_state[key] = value], by the update of the one field. *)
Definition modify (f : SessionState -> SessionState) : handler unit :=
  fun s => (Ok tt, f s).

(** [if cond: raise ...] *)
Definition when (cond : bool) (c : handler unit) : handler unit :=
  if cond then c else ret tt.

(** [try: body except Exception as e: raise handle(e)] *)
Definition try_except {A} (body : handler A) (handle : exn -> exn) : handler A :=
  fun s => match body s with
           | (Ok a, s') => (Ok a, s')
           | (Raise e, s') => (Raise (handle e), s')
           end.

(** A library call: [None] is the call raising. *)
Definition call {A} (o : origin) (r : option A) : handler A :=
  match r with
  | Some a => ret a
  | None => raise (Exception o)
  end.

Notation "x <- c ;; k" := (bind c (fun x => k))
  (at level 61, c at next level, right associativity).
Notation "c ;; k" := (bind c (fun _ => k))
  (at level 61, right associativity).

(** *** Assignments to the keys *)

Definition set_original_df (v : option DataFrame) (s : SessionState) :=
  mkSession v (processed_df s) (X_train s) (X_test s) (y_train s) (y_test s)
    (target_column s) (feature_columns s) (model s) (model_name s)
    (transformations_applied s).

Definition set_processed_df (v : option DataFrame) (s : SessionState) :=
  mkSession (original_df s) v (X_train s) (X_test s) (y_train s) (y_test s)
    (target_column s) (feature_columns s) (model s) (model_name s)
    (transformations_applied s).

Definition set_X_train (v : option DataFrame) (s : SessionState) :=
  mkSession (original_df s) (processed_df s) v (X_test s) (y_train s) (y_test s)
    (target_column s) (feature_columns s) (model s) (model_name s)
    (transformations_applied s).

Definition set_X_test (v : option DataFrame) (s : SessionState) :=
  mkSession (original_df s) (processed_df s) (X_train s) v (y_train s) (y_test s)
    (target_column s) (feature_columns s) (model s) (model_name s)
    (transformations_applied s).

Definition set_y_train (v : option Series) (s : SessionState) :=
  mkSession (original_df s) (processed_df s) (X_train s) (X_test s) v (y_test s)
    (target_column s) (feature_columns s) (model s) (model_name s)
    (transformations_applied s).

Definition set_y_test (v : option Series) (s : SessionState) :=
  mkSession (original_df s) (processed_df s) (X_train s) (X_test s) (y_train s) v
    (target_column s) (feature_columns s) (model s) (model_name s)
    (transformations_applied s).

Definition set_target_column (v : option string) (s : SessionState) :=
  mkSession (original_df s) (processed_df s) (X_train s) (X_test s) (y_train s)
    (y_test s) v (feature_columns s) (model s) (model_name s)
    (transformations_applied s).

Definition set_feature_columns (v : option (list string)) (s : SessionState) :=
  mkSession (original_df s) (processed_df s) (X_train s) (X_test s) (y_train s)
    (y_test s) (target_column s) v (model s) (model_name s)
    (transformations_applied s).

Definition set_model (v : option Model) (s : SessionState) :=
  mkSession (original_df s) (processed_df s) (X_train s) (X_test s) (y_train s)
    (y_test s) (target_column s) (feature_columns s) v (model_name s)
    (transformations_applied s).

Definition set_model_name (v : option string) (s : SessionState) :=
  mkSession (original_df s) (processed_df s) (X_train s) (X_test s) (y_train s)
    (y_test s) (target_column s) (feature_columns s) (model s) v
    (transformations_applied s).

Definition set_transformations_applied (v : list string) (s : SessionState) :=
  mkSession (original_df s) (processed_df s) (X_train s) (X_test s) (y_train s)
    (y_test s) (target_column s) (feature_columns s) (model s) (model_name s) v.

(** [session_state["transformations_applied"].append(msg)] *)
Definition append_transformation (msg : string) (s : SessionState) :=
  set_transformations_applied (transformations_applied s ++ [msg])%list s.

(** *** The collaborators *)

(** The library calls the handlers make.  A field returns [None] where the
    Python call raises.  [fit_transform] returns the scaled array by
    columns, one per selected column; [train_test_split] takes the
    features, the labels, [test_size], [random_state] and whether to
    stratify by the labels; the plotting fields return the base64 text of
    the rendered figure. *)
Record Library := mkLibrary {
  read_csv : list byte -> option DataFrame;
  read_excel : list byte -> option DataFrame;
  fit_transform : Scaler -> DataFrame -> option (list (list float));
  train_test_split :
    DataFrame -> Series -> float -> Z -> bool ->
    option (DataFrame * DataFrame * Series * Series);
  fit : Estimator -> DataFrame -> Series -> option Params;
  predict : Model -> DataFrame -> option (list cell);
  accuracy_score : Series -> list cell -> option float;
  confusion_matrix : Series -> list cell -> option (list (list Z));
  heatmap : list (list Z) -> Series -> option string;
  plot_tree : Model -> option (list string) -> Series -> option string;
  plot_importance : Model -> option (list string) -> option string;
  round : float -> Z -> float
}.

Variable lib : Library.

(** [JSONResponse(content)]: the body is rendered when the response is
    built, by [json.dumps(..., allow_nan=False)], which raises
    [ValueError] on a float that is not finite. *)
Definition JSONResponse (content : json) : handler json :=
  if Json.compliant content then ret content else raise (Exception json_dumps).

(** A value that must not be [None] for the code to go on. *)
Definition need {A} (o : option A) : handler A := call builtins o.

(** *** POST /upload *)

Definition upload_dataset (file_filename : string) (content : list byte)
  : handler json :=
  try_except
    (let filename := Str.lower file_filename in
     when (negb (Str.endswith filename ".csv" || Str.endswith filename ".xlsx"
                 || Str.endswith filename ".xls"))
          (raise (HTTPException InvalidFileType)) ;;
     df <- (if Str.endswith filename ".csv"
            then call pandas (read_csv lib content)
            else call pandas (read_excel lib content)) ;;
     when (DF.empty df) (raise (HTTPException FileEmpty)) ;;
     when (length (DF.columns df) <? 2)%nat (raise (HTTPException TooFewColumns)) ;;
     let df := DF.replace_inf df in
     modify (set_original_df (Some df)) ;;
     modify (set_processed_df (Some df)) ;;
     modify (set_transformations_applied []) ;;
     modify (set_X_train None) ;;
     modify (set_X_test None) ;;
     modify (set_y_train None) ;;
     modify (set_y_test None) ;;
     modify (set_model None) ;;
     let nan_count := DF.nan_count df in
     JSONResponse
       (JDict [ ("success", JBool true);
                ("message",
                 JStr ("Successfully uploaded " ++ file_filename ++
                       (if (0 <? nan_count)%nat
                        then " (" ++ Str.of_nat nan_count ++ " missing values detected)"
                        else EmptyString)));
                ("dataset_info",
                 JDict [ ("filename", JStr file_filename);
                         ("rows", Json.of_nat (DF.len df));
                         ("columns", Json.of_nat (length (DF.columns df)));
                         ("column_names", Json.strs (DF.columns df));
                         ("dtypes", dtypes_dict df) ]);
                ("preview", df_to_json df) ]))
    (fun e => match e with
              | HTTPException _ => e
              | _ => HTTPException (ErrorProcessingFile e)
              end).

(** *** GET /dataset *)

Definition get_dataset : handler json :=
  processed <- gets processed_df ;;
  match processed with
  | None => raise (HTTPException NoDatasetUploaded)
  | Some df =>
      transformations <- gets transformations_applied ;;
      JSONResponse
        (JDict [ ("success", JBool true);
                 ("dataset_info",
                  JDict [ ("rows", Json.of_nat (DF.len df));
                          ("columns", Json.of_nat (length (DF.columns df)));
                          ("column_names", Json.strs (DF.columns df));
                          ("dtypes", dtypes_dict df) ]);
                 ("preview", df_to_json df);
                 ("transformations_applied", Json.strs transformations) ])
  end.

(** *** POST /preprocess *)

(** [np.issubdtype(df[col].dtype, np.number)] *)
Definition column_is_number (df : DataFrame) (col : string) : bool :=
  match DF.getitem df col with
  | Some s => is_number (dtype s)
  | None => false
  end.

Definition preprocess_data (request : PreprocessRequest) : handler json :=
  processed <- gets processed_df ;;
  match processed with
  | None => raise (HTTPException NoDatasetUploaded)
  | Some df =>
      let invalid_cols :=
        filter (fun col => negb (Str.mem col (DF.columns df))) (pp_columns request) in
      when (negb (length invalid_cols =? 0)%nat)
           (raise (HTTPException (InvalidColumns invalid_cols (DF.columns df)))) ;;
      let non_numeric :=
        filter (fun col => negb (column_is_number df col)) (pp_columns request) in
      when (negb (length non_numeric =? 0)%nat)
           (raise (HTTPException (NotNumeric non_numeric))) ;;
      try_except
        (chosen <- (if String.eqb (pp_method request) "standardize"
                    then ret (StandardScaler, "StandardScaler (z-score normalization)")
                    else if String.eqb (pp_method request) "normalize"
                    then ret (MinMaxScaler, "MinMaxScaler (0-1 normalization)")
                    else raise (HTTPException InvalidMethod)) ;;
         let scaler := fst chosen in
         let method_name := snd chosen in
         selected <- call pandas (DF.select df (pp_columns request)) ;;
         scaled <- call sklearn (fit_transform lib scaler selected) ;;
         let df := DF.setitems df (pp_columns request) scaled in
         modify (set_processed_df (Some df)) ;;
         let transformation_msg :=
           "Applied " ++ method_name ++ " to columns: "
           ++ Str.repr_list (pp_columns request) in
         modify (append_transformation transformation_msg) ;;
         transformations <- gets transformations_applied ;;
         JSONResponse
           (JDict [ ("success", JBool true);
                    ("message", JStr transformation_msg);
                    ("preview", df_to_json df);
                    ("transformations_applied", Json.strs transformations) ]))
        (fun e => HTTPException (ErrorDuringPreprocessing e))
  end.

(** *** POST /reset-preprocessing *)

Definition reset_preprocessing : handler json :=
  original <- gets original_df ;;
  match original with
  | None => raise (HTTPException NoDataset)
  | Some df =>
      modify (set_processed_df (Some df)) ;;
      modify (set_transformations_applied []) ;;
      JSONResponse
        (JDict [ ("success", JBool true);
                 ("message", JStr "Dataset reset to original state");
                 ("preview", df_to_json df) ])
  end.

(** *** POST /split *)

(** [0.1 <= test_size <= 0.5] *)
Definition test_size_ok (test_size : float) : bool :=
  PrimFloat.leb 0.1 test_size && PrimFloat.leb test_size 0.5.

(** The loop over the feature columns: a column of dtype [object] is
    replaced by its [pd.factorize] codes. *)
Definition encode_features (X : DataFrame) : DataFrame :=
  map (fun col => if is_object (dtype col) then Factorize.encode col else col) X.

Definition split_data (request : SplitRequest) : handler json :=
  processed <- gets processed_df ;;
  match processed with
  | None => raise (HTTPException NoDatasetUploaded)
  | Some df =>
      when (negb (Str.mem (sp_target_column request) (DF.columns df)))
           (raise (HTTPException
                     (TargetNotFound (sp_target_column request) (DF.columns df)))) ;;
      when (negb (test_size_ok (sp_test_size request)))
           (raise (HTTPException TestSizeOutOfRange)) ;;
      try_except
        (let X := DF.drop df (sp_target_column request) in
         y <- call pandas (DF.getitem df (sp_target_column request)) ;;
         let X_encoded := encode_features X in
         let classes := Factorize.unique (values y) in
         parts <- call sklearn
                    (train_test_split lib X_encoded y (sp_test_size request)
                       (sp_random_state request) (1 <? length classes)%nat) ;;
         let '(X_tr, X_te, y_tr, y_te) := parts in
         modify (set_X_train (Some X_tr)) ;;
         modify (set_X_test (Some X_te)) ;;
         modify (set_y_train (Some y_tr)) ;;
         modify (set_y_test (Some y_te)) ;;
         modify (set_target_column (Some (sp_target_column request))) ;;
         modify (set_feature_columns (Some (DF.columns X))) ;;
         modify (set_model None) ;;
         modify (set_model_name None) ;;
         train_ratio <- need (int_of_float
                                (PrimFloat.mul (PrimFloat.sub 1 (sp_test_size request)) 100)) ;;
         test_ratio <- need (int_of_float (PrimFloat.mul (sp_test_size request) 100)) ;;
         JSONResponse
           (JDict [ ("success", JBool true);
                    ("message",
                     JStr ("Data split successfully (" ++ str_of_Z train_ratio
                           ++ "% train, " ++ str_of_Z test_ratio ++ "% test)"));
                    ("split_info",
                     JDict [ ("train_samples", Json.of_nat (DF.len X_tr));
                             ("test_samples", Json.of_nat (DF.len X_te));
                             ("train_ratio", JInt train_ratio);
                             ("test_ratio", JInt test_ratio);
                             ("target_column", JStr (sp_target_column request));
                             ("feature_columns", Json.strs (DF.columns X));
                             ("num_features", Json.of_nat (length (DF.columns X)));
                             ("target_classes", JList (map Json.of_cell classes)) ]) ]))
        (fun e => HTTPException (ErrorDuringSplit e))
  end.

(** *** POST /train *)

Definition train_model (request : TrainRequest) : handler json :=
  split_features <- gets X_train ;;
  match split_features with
  | None => raise (HTTPException DataNotSplit)
  | Some X_tr =>
      labels <- gets y_train ;;
      try_except
        (chosen <- (if String.eqb (tr_model_type request) "logistic_regression"
                    then ret (LogisticRegression, "Logistic Regression")
                    else if String.eqb (tr_model_type request) "decision_tree"
                    then ret (DecisionTreeClassifier, "Decision Tree Classifier")
                    else raise (HTTPException InvalidModelType)) ;;
         let est := fst chosen in
         let name_of_model := snd chosen in
         y_tr <- need labels ;;
         fitted <- call sklearn (fit lib est X_tr y_tr) ;;
         modify (set_model (Some (mkModel est fitted))) ;;
         modify (set_model_name (Some name_of_model)) ;;
         features <- gets feature_columns ;;
         JSONResponse
           (JDict [ ("success", JBool true);
                    ("message", JStr (name_of_model ++ " trained successfully!"));
                    ("model_info",
                     JDict [ ("model_type", JStr (tr_model_type request));
                             ("model_name", JStr name_of_model);
                             ("training_samples", Json.of_nat (DF.len X_tr));
                             ("features_used", Json.opt Json.strs features) ]) ]))
        (fun e => HTTPException (ErrorDuringTraining e))
  end.

(** *** GET /results *)

Definition get_results : handler json :=
  trained <- gets model ;;
  match trained with
  | None => raise (HTTPException NoModelTrained)
  | Some m =>
      name_of_model <- gets model_name ;;
      held_out <- gets X_test ;;
      labels <- gets y_test ;;
      features <- gets feature_columns ;;
      try_except
        (X_te <- need held_out ;;
         y_pred <- call sklearn (predict lib m X_te) ;;
         y_te <- need labels ;;
         accuracy <- call sklearn (accuracy_score lib y_te y_pred) ;;
         cm <- call sklearn (confusion_matrix lib y_te y_pred) ;;
         cm_base64 <- call matplotlib (heatmap lib cm y_te) ;;
         viz <- match estimator m with
                | DecisionTreeClassifier =>
                    img <- call matplotlib (plot_tree lib m features y_te) ;;
                    ret (img, "Decision Tree Structure")
                | LogisticRegression =>
                    img <- call matplotlib (plot_importance lib m features) ;;
                    ret (img, "Feature Importance")
                end ;;
         JSONResponse
           (JDict [ ("success", JBool true);
                    ("message", JStr "Model evaluation complete!");
                    ("results",
                     JDict [ ("model_name", Json.opt JStr name_of_model);
                             ("accuracy",
                              JFloat (round lib (PrimFloat.mul accuracy 100) 2));
                             ("accuracy_decimal", JFloat (round lib accuracy 4));
                             ("test_samples", Json.of_nat (length (values y_te)));
                             ("confusion_matrix",
                              JList (map (fun row => JList (map JInt row)) cm)) ]);
                    ("visualizations",
                     JDict [ ("confusion_matrix",
                              JDict [ ("title", JStr "Confusion Matrix");
                                      ("image", JStr cm_base64) ]);
                             ("model_specific",
                              if String.eqb (fst viz) EmptyString then JNull
                              else JDict [ ("title", JStr (snd viz));
                                           ("image", JStr (fst viz)) ]) ]) ]))
        (fun e => HTTPException (ErrorGeneratingResults e))
  end.

(** *** GET /pipeline-status *)

Definition is_not_None {A} (o : option A) : bool :=
  match o with Some _ => true | None => false end.

Definition get_pipeline_status : handler json :=
  s <- gets (fun s => s) ;;
  JSONResponse
    (JDict [ ("upload", JBool (is_not_None (original_df s)));
             ("preprocess", JBool (0 <? length (transformations_applied s))%nat);
             ("split", JBool (is_not_None (X_train s)));
             ("train", JBool (is_not_None (model s)));
             ("results", JBool (is_not_None (model s)));
             ("details",
              JDict [ ("dataset_rows",
                       match original_df s with
                       | Some df => Json.of_nat (DF.len df)
                       | None => JInt 0
                       end);
                      ("transformations", Json.strs (transformations_applied s));
                      ("model_name", Json.opt JStr (model_name s));
                      ("target_column", Json.opt JStr (target_column s)) ]) ]).

(** *** POST /reset *)

Definition reset_pipeline : handler json :=
  modify (fun _ => initial_state) ;;
  JSONResponse
    (JDict [ ("success", JBool true);
             ("message", JStr "Pipeline reset successfully") ]).

(** *** The application *)

(** One request to the API. *)
Inductive Request :=
| PostUpload (filename : string) (content : list byte)
| GetDataset
| PostPreprocess (request : PreprocessRequest)
| PostResetPreprocessing
| PostSplit (request : SplitRequest)
| PostTrain (request : TrainRequest)
| GetResults
| GetPipelineStatus
| PostReset.

Definition serve (r : Request) : handler json :=
  match r with
  | PostUpload filename content => upload_dataset filename content
  | GetDataset => get_dataset
  | PostPreprocess request => preprocess_data request
  | PostResetPreprocessing => reset_preprocessing
  | PostSplit request => split_data request
  | PostTrain request => train_model request
  | GetResults => get_results
  | GetPipelineStatus => get_pipeline_status
  | PostReset => reset_pipeline
  end.

(** The session after a request, whether it was answered or refused. *)
Definition after (r : Request) (s : SessionState) : SessionState := snd (serve r s).

(** The session after a sequence of requests, served one after another. *)
Definition run (rs : list Request) (s : SessionState) : SessionState :=
  fold_left (fun st r => after r st) rs s.

(** The sessions the application can be in: those a sequence of requests
    leads to from the initial dictionary. *)
Inductive reachable : SessionState -> Prop :=
| reach_init : reachable initial_state
| reach_step : forall s r, reachable s -> reachable (after r s).

(** The request succeeded: the handler returned a response. *)
Definition succeeds {A} (c : handler A) (s : SessionState) : Prop :=
  exists body, fst (c s) = Ok body.

(** The request failed with a 400 response of the given kind. *)
Definition fails_with {A} (k : error_kind) (c : handler A) (s : SessionState) : Prop :=
  exists d, fst (c s) = Raise (HTTPException d) /\ kind_of d = k.

(** The request failed with a 400 response, of whatever kind. *)
Definition fails {A} (c : handler A) (s : SessionState) : Prop :=
  exists d, fst (c s) = Raise (HTTPException d).

End Handlers.

Arguments Ok {A} a.
Arguments Raise {A} e.
Arguments initial_state {Params}.

Arguments mkModel {Params} estimator params.
Arguments estimator {Params} m.
Arguments params {Params} m.
Arguments original_df {Params} s.
Arguments processed_df {Params} s.
Arguments X_train {Params} s.
Arguments X_test {Params} s.
Arguments y_train {Params} s.
Arguments y_test {Params} s.
Arguments target_column {Params} s.
Arguments feature_columns {Params} s.
Arguments model {Params} s.
Arguments model_name {Params} s.
Arguments transformations_applied {Params} s.
Arguments mkSession {Params}.
Arguments mkLibrary {Params}.
Arguments read_csv {Params} l.
Arguments read_excel {Params} l.
Arguments fit_transform {Params} l.
Arguments train_test_split {Params} l.
Arguments fit {Params} l.
Arguments predict {Params} l.
Arguments upload_dataset {Params} lib file_filename content s.
Arguments get_dataset {Params} s.
Arguments preprocess_data {Params} lib request s.
Arguments reset_preprocessing {Params} s.
Arguments split_data {Params} lib request s.
Arguments train_model {Params} lib request s.
Arguments get_results {Params} lib s.
Arguments get_pipeline_status {Params} s.
Arguments reset_pipeline {Params} s.
Arguments serve {Params} lib r s.
Arguments after {Params} lib r s.
Arguments run {Params} lib rs s.
Arguments reachable {Params} lib s.
Arguments succeeds {Params A} c s.
Arguments fails_with {Params A} k c s.
Arguments fails {Params A} c s.

(** ** A concrete library and concrete tables

    One instance of the collaborators, small enough to evaluate, on which
    the handlers are run in the examples below.  It keeps the input checks
    of the real libraries that matter to the handlers: a scaler refuses a
    selection of zero columns, a split needs two rows and refuses to
    stratify by labels with missing entries. *)

Module Demo.

(** The fitted parameters: the training labels, remembered. *)
Definition Params : Type := list cell.

Definition float_of_nat (n : nat) : float :=
  PrimFloat.of_uint63 (Uint63.of_Z (Z.of_nat n)).

(** A scaler that maps every entry of a selected column to 0.0, as
    standardising a constant column does; zero columns are refused. *)
Definition fit_transform (_ : Scaler) (selected : DataFrame) : option (list (list float)) :=
  match selected with
  | [] => None
  | _ => Some (map (fun s => map (fun _ => 0%float) (values s)) selected)
  end.

(** [ceil(test_size * n)], the number of test rows. *)
Definition n_test_of (test_size : float) (n : nat) : option nat :=
  let x := PrimFloat.mul test_size (float_of_nat n) in
  match int_of_float x with
  | Some t =>
      Some (Z.to_nat (if PrimFloat.ltb (float_of_nat (Z.to_nat t)) x
                      then (t + 1)%Z else t))
  | None => None
  end.

(** How often a label occurs. *)
Definition count_of (c : cell) (l : list cell) : nat :=
  length (filter (Factorize.same_key c) l).

Definition take (n : nat) (s : Series) : Series :=
  mkSeries (name s) (dtype s) (firstn n (values s)).

Definition leave (n : nat) (s : Series) : Series :=
  mkSeries (name s) (dtype s) (skipn n (values s)).

(** A split with the sizes and the checks of scikit-learn: [ceil(test_size
    * n)] test rows and the rest for training, at least one training row,
    and for a stratified split no missing label, two rows of every class
    and no fewer training or test rows than classes.  Which rows are held
    out is fixed here, the last ones, where scikit-learn draws them with
    the seed. *)
Definition train_test_split (X : DataFrame) (y : Series) (test_size : float)
    (random_state : Z) (stratify : bool)
  : option (DataFrame * DataFrame * Series * Series) :=
  let n := length (values y) in
  let classes := Factorize.unique (values y) in
  match n_test_of test_size n with
  | None => None
  | Some n_test =>
      let n_train := (n - n_test)%nat in
      if (n_train =? 0)%nat then None
      else if stratify
              && (existsb isna (values y)
                  || existsb (fun c => (count_of c (values y) <? 2)%nat) classes
                  || (n_train <? length classes)%nat
                  || (n_test <? length classes)%nat)
      then None
      else Some (map (take n_train) X, map (leave n_train) X,
                 take n_train y, leave n_train y)
  end.

(** An estimator that remembers its training labels and predicts the
    first of them.  As in scikit-learn, a missing label is refused, and a
    logistic regression also refuses a single class and a missing entry
    among the features. *)
Definition fit (est : Estimator) (X : DataFrame) (y : Series) : option Params :=
  let logistic := match est with LogisticRegression => true | _ => false end in
  if existsb isna (values y) then None
  else if logistic && (length (Factorize.unique (values y)) <? 2)%nat then None
  else if logistic && existsb (fun col => existsb isna (values col)) X then None
  else match values y with
       | [] => None
       | l => Some l
       end.

Definition predict (m : Model Params) (X : DataFrame) : option (list cell) :=
  Some (repeat (hd CNone (params m)) (DF.len X)).

Definition accuracy_score (y : Series) (y_pred : list cell) : option float :=
  let hits := length (filter (fun p => cell_eqb (fst p) (snd p))
                             (combine (values y) y_pred)) in
  match values y with
  | [] => None
  | l => Some (PrimFloat.div (float_of_nat hits) (float_of_nat (length l)))
  end.

Definition confusion_matrix (y : Series) (y_pred : list cell)
  : option (list (list Z)) :=
  Some [[Z.of_nat (length (values y))]].

(** The library whose readers read every file as [table]. *)
Definition lib (table : DataFrame) : Library Params :=
  mkLibrary
    (fun _ => Some table) (fun _ => Some table)
    fit_transform train_test_split fit predict
    accuracy_score confusion_matrix
    (fun _ _ => Some "iVBORw0KGgo=")
    (fun _ _ _ => Some "iVBORw0KGgo=")
    (fun _ _ => Some "iVBORw0KGgo=")
    (fun f _ => f).

(** What pandas reads from the CSV text
    [age,smoker,city,label / 30,True,Oslo,1 / 41,False,Rome,0 /
     30,True,Oslo,1 / 52,False,,0]. *)
Definition patients : DataFrame :=
  [ mkSeries "age" int64 [CInt 30; CInt 41; CInt 30; CInt 52];
    mkSeries "smoker" bool_ [CBool true; CBool false; CBool true; CBool false];
    mkSeries "city" object_ [CStr "Oslo"; CStr "Rome"; CStr "Oslo"; CFloat nan];
    mkSeries "label" int64 [CInt 1; CInt 0; CInt 1; CInt 0] ].

(** The column [smoker] of [patients]. *)
Definition smoker : Series :=
  mkSeries "smoker" bool_ [CBool true; CBool false; CBool true; CBool false].

(** What pandas reads from the CSV text [a,y / 1, / 2, / 3,]: the column
    [y] has no entry at all and is read as float64, all [nan]. *)
Definition unlabelled : DataFrame :=
  [ mkSeries "a" int64 [CInt 1; CInt 2; CInt 3];
    mkSeries "y" float64 [CFloat nan; CFloat nan; CFloat nan] ].

(** What pandas reads from the CSV text [t,ok / 1.5,1 / inf,0 / -inf,1]. *)
Definition readings : DataFrame :=
  [ mkSeries "t" float64 [CFloat 1.5; CFloat infinity; CFloat neg_infinity];
    mkSeries "ok" int64 [CInt 1; CInt 0; CInt 1] ].

Definition csv : list byte := [].

Definition split_on (target : string) : SplitRequest :=
  mkSplitRequest target 0.2 42.

Definition halves (target : string) : SplitRequest :=
  mkSplitRequest target 0.5 42.

End Demo.

(** ** Vocabulary of the properties *)

Section Vocabulary.

Context {Params : Type}.

Local Abbreviation State := (SessionState Params).

(** The reader [upload_dataset] picks for a file name. *)
Definition read_file (lib : Library Params) (filename : string) (content : list byte)
  : option DataFrame :=
  if Str.endswith (Str.lower filename) ".csv"
  then read_csv lib content else read_excel lib content.

(** The session an accepted upload of [df] leaves. *)
Definition upload_store (df : DataFrame) (s : State) : State :=
  mkSession (Some df) (Some df) None None None None
    (target_column s) (feature_columns s) None (model_name s) [].

(** What [split_data] writes. *)
Definition split_store (X_tr X_te : DataFrame) (y_tr y_te : Series)
    (target : string) (features : list string) (s : State) : State :=
  mkSession (original_df s) (processed_df s) (Some X_tr) (Some X_te)
    (Some y_tr) (Some y_te) (Some target) (Some features) None None
    (transformations_applied s).

(** The name [train_model] stores with an estimator. *)
Definition display_name (est : Estimator) : string :=
  match est with
  | LogisticRegression => "Logistic Regression"
  | DecisionTreeClassifier => "Decision Tree Classifier"
  end.

(** The scaler [preprocess_data] builds for a method name. *)
Definition scaler_named (method : string) : Scaler :=
  if String.eqb method "standardize" then StandardScaler else MinMaxScaler.

(** All six keys written by [split_data] hold a value. *)
Definition split_present (s : State) : Prop :=
  X_train s <> None /\ X_test s <> None /\ y_train s <> None /\ y_test s <> None
  /\ target_column s <> None /\ feature_columns s <> None.

(** The model [m] is what fitting its estimator on the training part of
    the split now in the session returns. *)
Definition fitted_on_current_split (lib : Library Params) (s : State) (m : Model Params)
  : Prop :=
  exists X y, X_train s = Some X /\ y_train s = Some y
              /\ fit lib (estimator m) X y = Some (params m).

(** The keys of the split and of the model agree in two sessions. *)
Definition same_split_and_model (s s' : State) : Prop :=
  X_train s' = X_train s /\ X_test s' = X_test s
  /\ y_train s' = y_train s /\ y_test s' = y_test s
  /\ target_column s' = target_column s /\ feature_columns s' = feature_columns s
  /\ model s' = model s /\ model_name s' = model_name s.

(** What the handlers keep true of the session: a stored training table
    comes with the rest of the split, and a stored model was fitted on the
    training part of the split in the session and carries the name of its
    estimator. *)
Definition session_invariant (lib : Library Params) (s : State) : Prop :=
  (X_train s <> None -> split_present s)
  /\ (forall m, model s = Some m ->
                split_present s /\ fitted_on_current_split lib s m
                /\ model_name s = Some (display_name (estimator m))).

(** Every request of a sequence is answered with a response. *)
Fixpoint all_succeed (lib : Library Params) (rs : list Request) (s : State) : Prop :=
  match rs with
  | [] => True
  | r :: rest => succeeds (serve lib r) s /\ all_succeed lib rest (after lib r s)
  end.

End Vocabulary.

(** [lo <= x <= hi] on binary64 values. *)
Definition within (lo hi x : float) : Prop :=
  PrimFloat.leb lo x = true /\ PrimFloat.leb x hi = true.

(** The code a value seen for the first time gets after the codes [seen]:
    one more than the largest code handed out so far. *)
Definition next_code (seen : list Z) : Z := (fold_right Z.max (-1) seen + 1)%Z.

(** The entry is not a float. *)
Definition exact (c : cell) : bool :=
  match c with CFloat _ => false | _ => true end.

(** The entry [df.replace([np.inf, -np.inf], np.nan)] leaves for an entry. *)
Definition replaced (c : cell) : cell :=
  match c with
  | CFloat f => if PrimFloat.is_infinity f then CFloat nan else c
  | _ => c
  end.



(** The entry stored for an entry read from the file. *)
Definition stored_as (read stored : cell) : Prop :=
  match read with
  | CFloat f => if PrimFloat.is_infinity f then stored = CFloat nan else stored = read
  | _ => stored = read
  end.

(** The table stored for a table read from the file: the same columns,
    every infinity replaced by [nan] and every other entry kept. *)
Definition infinities_replaced (parsed stored : DataFrame) : Prop :=
  Forall2 (fun col col' => name col' = name col /\ dtype col' = dtype col
                           /\ Forall2 stored_as (values col) (values col'))
    parsed stored.

(** The result of a handler whose last step is the rendering of a body
    with a preview: the response when the preview renders, and [e]
    otherwise. *)
Definition rendered (renders : bool) (e : exn) (r : result json) : Prop :=
  if renders then exists body, r = Ok body else r = Raise e.

(** The exceptions that are raised after the handler has written the
    session: the [ValueError] of a body that does not render, bare or
    wrapped by the handler, and the conversions of the two ratios in
    [split_data]. *)
Definition raised_after_writing (e : exn) : bool :=
  match e with
  | Exception json_dumps => true
  | HTTPException (ErrorProcessingFile (Exception json_dumps)) => true
  | HTTPException (ErrorDuringPreprocessing (Exception json_dumps)) => true
  | HTTPException (ErrorDuringSplit (Exception json_dumps)) => true
  | HTTPException (ErrorDuringSplit (Exception builtins)) => true
  | _ => false
  end.

(** The sessions of the examples. *)
Module Example.

Import Demo.

Definition L := Demo.lib patients.

Definition U := Demo.lib unlabelled.

(** After the upload of [patients]. *)
Definition uploaded : SessionState Params :=
  after L (PostUpload "patients.csv" csv) initial_state.

(** Then the split on [label], one half for training and one for tests. *)
Definition split : SessionState Params :=
  after L (PostSplit (halves "label")) uploaded.

(** Then a decision tree. *)
Definition trained : SessionState Params :=
  after L (PostTrain (mkTrainRequest "decision_tree")) split.

(** After the upload of [unlabelled]. *)
Definition uploaded_unlabelled : SessionState Params :=
  after U (PostUpload "unlabelled.csv" csv) initial_state.

(** The library that reads every file as [readings]. *)
Definition R := Demo.lib readings.

Definition standardize (cols : list string) : PreprocessRequest :=
  mkPreprocessRequest cols "standardize".

End Example.

(** ** The liveness endpoint and further vocabulary *)

Section Liveness.

Context {Params : Type}.

(** GET / *)
Definition root : handler Params json :=
  JSONResponse Params
    (JDict [ ("status", JStr "healthy");
             ("message", JStr "ML Pipeline Builder API is running") ]).

(** What the handlers keep true of the stages: the original and the working
    table are stored together and carry the same column labels in the same
    order, and a recorded transformation or a stored split comes with an
    uploaded table. *)
Definition stage_invariant (s : SessionState Params) : Prop :=
  match original_df s, processed_df s with
  | Some original, Some working => DF.columns working = DF.columns original
  | None, None => X_train s = None /\ transformations_applied s = []
  | _, _ => False
  end.

(** A request that only works on the working table. *)
Definition is_preprocessing (r : Request) : bool :=
  match r with
  | PostPreprocess _ | PostResetPreprocessing => true
  | _ => false
  end.

(** The keys other than [model] and [model_name] agree in two sessions. *)
Definition same_but_model (s s' : SessionState Params) : Prop :=
  original_df s' = original_df s /\ processed_df s' = processed_df s
  /\ X_train s' = X_train s /\ X_test s' = X_test s
  /\ y_train s' = y_train s /\ y_test s' = y_test s
  /\ target_column s' = target_column s /\ feature_columns s' = feature_columns s
  /\ transformations_applied s' = transformations_applied s.

End Liveness.

(** The test on the file name that [upload_dataset] starts with. *)
Definition allowed_extension (filename : string) : bool :=
  Str.endswith (Str.lower filename) ".csv"
  || Str.endswith (Str.lower filename) ".xlsx"
  || Str.endswith (Str.lower filename) ".xls".

(** No entry of the table is an infinity. *)
Definition no_infinity (df : DataFrame) : Prop :=
  forall col f, In col df -> In (CFloat f) (values col) ->
                PrimFloat.is_infinity f = false.

(** Label, dtype and number of entries of every column, in order. *)
Definition shape (df : DataFrame) : list (string * Dtype * nat) :=
  map (fun col => (name col, dtype col, length (values col))) df.

(** The flag of a stage in a status report. *)
Definition flag (stage : string) (report : json) : bool :=
  match Json.get stage report with
  | Some (JBool true) => true
  | _ => false
  end.

(** A field of an object inside a response body. *)
Definition field (object key : string) (body : json) : option json :=
  match Json.get object body with
  | Some inner => Json.get key inner
  | None => None
  end.

(** * Properties *)

(** ** Response bodies and their rendering *)

Lemma compliant_list l :
  (forall j, In j l -> Json.compliant j = true) -> Json.compliant (JList l) = true.
Proof.
  intros H. cbn. apply forallb_forall. exact H.
Qed.

Lemma compliant_dict l :
  (forall kv, In kv l -> Json.compliant (snd kv) = true) ->
  Json.compliant (JDict l) = true.
Proof.
  intros H. cbn. apply forallb_forall. exact H.
Qed.

Lemma compliant_dict_cons k v l :
  Json.compliant (JDict ((k, v) :: l)) = Json.compliant v && Json.compliant (JDict l).
Proof. reflexivity. Qed.

Lemma compliant_dict_nil : Json.compliant (JDict []) = true.
Proof. reflexivity. Qed.

Lemma compliant_strs l : Json.compliant (Json.strs l) = true.
Proof.
  apply compliant_list. intros j Hj. apply in_map_iff in Hj.
  destruct Hj as [x [<- _]]. reflexivity.
Qed.

Lemma compliant_opt_str o : Json.compliant (Json.opt JStr o) = true.
Proof. destruct o; reflexivity. Qed.

Lemma compliant_opt_strs o : Json.compliant (Json.opt Json.strs o) = true.
Proof. destruct o; [apply compliant_strs | reflexivity]. Qed.

Lemma compliant_dtypes df : Json.compliant (dtypes_dict df) = true.
Proof.
  apply compliant_dict. intros kv Hkv. apply in_map_iff in Hkv.
  destruct Hkv as [x [<- _]]. reflexivity.
Qed.

Lemma compliant_of_nat n : Json.compliant (Json.of_nat n) = true.
Proof. reflexivity. Qed.








Arguments df_to_json : simpl never.

Lemma replace_inf_map df : DF.replace_inf df = DF.map_cells replaced df.
Proof. reflexivity. Qed.

Lemma len_replace_inf df : DF.len (DF.replace_inf df) = DF.len df.
Proof. destruct df as [|col df]; cbn; [reflexivity | apply length_map]. Qed.


(** Proves that a response body without a preview renders, entry by entry. *)
Ltac compliance :=
  first [ reflexivity | apply compliant_strs | apply compliant_dtypes
        | apply compliant_opt_str | apply compliant_opt_strs
        | match goal with
          | |- context [match ?o with Some _ => _ | None => _ end] =>
              destruct o; reflexivity
          end
        | apply compliant_dict;
          let kv := fresh "kv" in
          let Hkv := fresh "Hkv" in
          intros kv Hkv; cbn [In] in Hkv;
          repeat (destruct Hkv as [<- | Hkv]; [cbn [snd]; compliance|]);
          destruct Hkv ].

(** Reduces the rendering of a body to the rendering of the parts of it
    that may hold a float. *)
Ltac reduce_compliance H :=
  rewrite ?compliant_dict_cons, ?compliant_dict_nil, ?compliant_strs,
    ?compliant_dtypes, ?compliant_opt_str, ?compliant_opt_strs,
    ?compliant_of_nat in H;
  cbn [Json.compliant andb] in H;
  rewrite ?andb_true_r in H.

(** ** Running a handler *)

(** Unfolds a handler down to its tests and its final pair. *)
Ltac unfold_handler H :=
  cbv beta zeta iota delta
    [upload_dataset get_dataset preprocess_data reset_preprocessing split_data
     train_model get_results get_pipeline_status reset_pipeline
     try_except bind when call need modify ret raise gets JSONResponse] in H.

(** Decides one test of the unfolded handler. *)
Ltac exec_step H :=
  match type of H with
  | context [Json.compliant (JDict ?l)] =>
      first [ rewrite (ltac:(compliance) : Json.compliant (JDict l) = true) in H
            | progress reduce_compliance H ]
  | context [if ?b then _ else _] => destruct b eqn:?
  | context [match ?o with Some _ => _ | None => _ end] => destruct o eqn:?
  | context [let '(_, _) := ?p in _] => is_var p; destruct p
  | context [match ?e with LogisticRegression => _ | DecisionTreeClassifier => _ end] =>
      destruct e eqn:?
  end; cbv beta iota in H.

Ltac exec H := unfold_handler H; repeat exec_step H.

(** Settles [rendered] from the test on the body met while running. *)
Ltac settle_rendered :=
  unfold rendered;
  try match goal with
      | H : Json.compliant _ = _ |- _ => rewrite H
      end;
  first [ reflexivity | eexists; reflexivity ].

(** ** What each handler does to the session *)

Section Effects.

Context {Params : Type} (lib : Library Params).

Local Abbreviation State := (SessionState Params).

(** An upload is refused by one of its checks and leaves the session
    alone, or it stores the table read from the file, infinities replaced,
    and then answers if the preview of that table renders and raises
    otherwise. *)
Lemma upload_dataset_cases f c (s : State) :
  (exists d, upload_dataset lib f c s = (Raise (HTTPException d), s)) \/
  (exists df r,
      read_file lib f c = Some df /\ DF.empty df = false /\
      upload_dataset lib f c s = (r, upload_store (DF.replace_inf df) s) /\
      rendered (Json.compliant (df_to_json (DF.replace_inf df)))
        (HTTPException (ErrorProcessingFile (Exception json_dumps))) r).
Proof.
  remember (upload_dataset lib f c s) as out eqn:E.
  unfold read_file. exec E; subst out;
    solve [ left; eexists; reflexivity
          | right; eexists; eexists;
            split; [first [eassumption | reflexivity]|]; split; [eassumption|];
            split; [reflexivity | settle_rendered] ].
Qed.

(** An accepted upload keeps three keys of an earlier split and model:
    [upload_store] copies [target_column], [feature_columns] and
    [model_name] from the session before. *)
Lemma upload_dataset_accepted f c (s : State) :
  succeeds (upload_dataset lib f c) s ->
  exists df,
    read_file lib f c = Some df
    /\ Json.compliant (df_to_json (DF.replace_inf df)) = true
    /\ snd (upload_dataset lib f c s) = upload_store (DF.replace_inf df) s
    /\ target_column (snd (upload_dataset lib f c s)) = target_column s
    /\ feature_columns (snd (upload_dataset lib f c s)) = feature_columns s
    /\ model_name (snd (upload_dataset lib f c s)) = model_name s.
Proof.
  intros [b Hb].
  destruct (upload_dataset_cases f c s) as [[d E] | (df & r & Hread & _ & E & Hr)];
    rewrite E in *; [discriminate Hb|].
  exists df. split; [exact Hread|]. split; [|repeat split].
  unfold rendered in Hr. cbn [fst] in Hb.
  destruct (Json.compliant (df_to_json (DF.replace_inf df))); [reflexivity|].
  rewrite Hr in Hb. discriminate Hb.
Qed.

(** [get_dataset] never writes; with a working table it answers if the
    preview renders and raises otherwise. *)
Lemma get_dataset_cases (s : State) :
  (processed_df s = None
   /\ get_dataset s = (Raise (HTTPException NoDatasetUploaded), s))
  \/ (exists df r,
         processed_df s = Some df /\ get_dataset s = (r, s)
         /\ rendered (Json.compliant (df_to_json df)) (Exception json_dumps) r).
Proof.
  remember (get_dataset s) as out eqn:E.
  exec E; subst out;
    solve [ left; split; reflexivity
          | right; eexists; eexists; split; [reflexivity|];
            split; [reflexivity | settle_rendered] ].
Qed.

Lemma get_dataset_session (s : State) : snd (get_dataset s) = s.
Proof.
  destruct (get_dataset_cases s) as [[_ E] | (df & r & _ & E & _)];
    rewrite E; reflexivity.
Qed.

(** A preprocessing request is refused by one of its checks, by the
    scaler or for its method and leaves the session alone, or it replaces
    the working table and appends one message, and then answers if the
    preview of the new table renders and raises otherwise. *)
Lemma preprocess_data_cases req (s : State) :
  (exists d, preprocess_data lib req s = (Raise (HTTPException d), s)) \/
  (exists df r msg,
      preprocess_data lib req s =
        (r, append_transformation Params msg (set_processed_df Params (Some df) s))
      /\ rendered (Json.compliant (df_to_json df))
           (HTTPException (ErrorDuringPreprocessing (Exception json_dumps))) r).
Proof.
  remember (preprocess_data lib req s) as out eqn:E.
  exec E; subst out;
    solve [ left; eexists; reflexivity
          | right; eexists; eexists; eexists;
            split; [reflexivity | settle_rendered] ].
Qed.

(** A reset of the preprocessing is refused when nothing is uploaded;
    otherwise it puts the original table back, and then answers if the
    preview of that table renders and raises otherwise. *)
Lemma reset_preprocessing_cases (s : State) :
  (original_df s = None /\
   reset_preprocessing s = (Raise (HTTPException NoDataset), s)) \/
  (exists df r,
      original_df s = Some df /\
      reset_preprocessing s =
        (r, set_transformations_applied Params []
              (set_processed_df Params (Some df) s))
      /\ rendered (Json.compliant (df_to_json df)) (Exception json_dumps) r).
Proof.
  remember (reset_preprocessing s) as out eqn:E.
  exec E; subst out;
    solve [ left; split; reflexivity
          | right; eexists; eexists; split; [reflexivity|];
            split; [reflexivity | settle_rendered] ].
Qed.

(** A split leaves the session alone, or writes all six keys of the split
    and clears the model; it may do so and still answer with an error. *)
Lemma split_data_session req (s : State) :
  snd (split_data lib req s) = s \/
  exists X_tr X_te y_tr y_te features,
    snd (split_data lib req s) =
      split_store X_tr X_te y_tr y_te (sp_target_column req) features s.
Proof.
  remember (split_data lib req s) as out eqn:E.
  exec E; subst out;
    solve [ left; reflexivity
          | right; do 5 eexists; reflexivity ].
Qed.

(** Training leaves the session alone, or stores the model fitted on the
    training part of the split in the session, with its name. *)
Lemma train_model_cases req (s : State) :
  (exists d, train_model lib req s = (Raise (HTTPException d), s)) \/
  (exists est fitted X y body,
      X_train s = Some X /\ y_train s = Some y /\ fit lib est X y = Some fitted /\
      train_model lib req s =
        (Ok body, set_model_name Params (Some (display_name est))
                    (set_model Params (Some (mkModel est fitted)) s))).
Proof.
  remember (train_model lib req s) as out eqn:E.
  exec E; subst out;
    solve [ left; eexists; reflexivity
          | right; do 5 eexists; repeat split; try eassumption; reflexivity ].
Qed.

Lemma get_results_session (s : State) : snd (get_results lib s) = s.
Proof.
  remember (get_results lib s) as out eqn:E.
  exec E; subst out; reflexivity.
Qed.

Lemma get_pipeline_status_ok (s : State) :
  exists body, get_pipeline_status s = (Ok body, s).
Proof.
  remember (get_pipeline_status s) as out eqn:E.
  exec E; subst out; eexists; reflexivity.
Qed.

Lemma reset_pipeline_session (s : State) : snd (reset_pipeline s) = initial_state.
Proof.
  remember (reset_pipeline s) as out eqn:E. exec E; subst out; reflexivity.
Qed.

End Effects.

(** ** The split and the model *)

Section SplitAndModel.

Context {Params : Type} (lib : Library Params).

Local Abbreviation State := (SessionState Params).

Lemma same_split_and_model_refl (s : State) : same_split_and_model s s.
Proof. unfold same_split_and_model. repeat split. Qed.

Lemma preprocess_data_frame (req : PreprocessRequest) (s : State) :
  same_split_and_model s (snd (preprocess_data lib req s)).
Proof.
  destruct (preprocess_data_cases lib req s) as [[d E] | (df & r & msg & E & _)];
    rewrite E; cbn [snd].
  - apply same_split_and_model_refl.
  - unfold same_split_and_model. repeat split.
Qed.

Lemma reset_preprocessing_frame (s : State) :
  same_split_and_model s (snd (reset_preprocessing s)).
Proof.
  destruct (reset_preprocessing_cases s) as [[_ E] | (df & r & _ & E & _)];
    rewrite E; cbn [snd].
  - apply same_split_and_model_refl.
  - unfold same_split_and_model. repeat split.
Qed.

(** C5: neither [preprocess_data], accepted or refused, nor
    [reset_preprocessing] changes a key of the split ([X_train], [X_test],
    [y_train], [y_test], [target_column], [feature_columns]) or of the
    model ([model], [model_name]). *)
Theorem preprocessing_keeps_split_and_model (req : PreprocessRequest) (s : State) :
  same_split_and_model s (snd (preprocess_data lib req s))
  /\ same_split_and_model s (snd (reset_preprocessing s)).
Proof.
  split; [apply preprocess_data_frame | apply reset_preprocessing_frame].
Qed.

Lemma invariant_initial : session_invariant lib (@initial_state Params).
Proof.
  split.
  - intros H. exfalso. apply H. reflexivity.
  - intros m H. discriminate H.
Qed.

(** A request that writes neither the split nor the model keeps the
    invariant. *)
Lemma invariant_frame (s s' : State) :
  same_split_and_model s s' -> session_invariant lib s -> session_invariant lib s'.
Proof.
  unfold same_split_and_model, session_invariant, split_present,
    fitted_on_current_split.
  intros (E1 & E2 & E3 & E4 & E5 & E6 & E7 & E8) [HS HM].
  rewrite E1, E2, E3, E4, E5, E6, E7, E8. split; assumption.
Qed.

Lemma invariant_step (r : Request) (s : State) :
  session_invariant lib s -> session_invariant lib (after lib r s).
Proof.
  intros Inv. unfold after. destruct r as [f c| |req| |req|req| | |]; cbn [serve].
  - destruct (upload_dataset_cases lib f c s) as [[d E] | (df & r & _ & _ & E & _)];
      rewrite E; cbn [snd]; [exact Inv|].
    split.
    + intros H. exfalso. apply H. reflexivity.
    + intros m H. discriminate H.
  - rewrite get_dataset_session. exact Inv.
  - apply (invariant_frame s); [|exact Inv].
    apply preprocess_data_frame.
  - apply (invariant_frame s); [|exact Inv].
    apply reset_preprocessing_frame.
  - destruct (split_data_session lib req s)
      as [E | (X_tr & X_te & y_tr & y_te & features & E)];
      rewrite E; [exact Inv|].
    split.
    + intros _. unfold split_present. cbn. repeat split; discriminate.
    + intros m H. discriminate H.
  - destruct (train_model_cases lib req s)
      as [[d E] | (est & fitted & X & y & body & HX & Hy & Hfit & E)];
      rewrite E; cbn [snd]; [exact Inv|].
    destruct Inv as [HS _].
    assert (Hsplit : split_present s) by (apply HS; rewrite HX; discriminate).
    split.
    + intros _. exact Hsplit.
    + intros m H. cbn in H. injection H as <-. split; [exact Hsplit|].
      split; [|reflexivity].
      exists X, y. cbn. repeat split; assumption.
  - rewrite get_results_session. exact Inv.
  - destruct (get_pipeline_status_ok s) as [body E]. rewrite E. exact Inv.
  - rewrite reset_pipeline_session. apply invariant_initial.
Qed.

Lemma invariant_reachable (s : State) : reachable lib s -> session_invariant lib s.
Proof.
  induction 1 as [|s r _ IH].
  - apply invariant_initial.
  - apply invariant_step. exact IH.
Qed.

(** C2: in every session reached from the initial one by any sequence of
    requests, a stored model comes with a stored split, and it is the
    model that fitting its estimator on the training part of that very
    split returns; it carries the display name of its estimator. *)
Theorem trained_model_fits_current_split (s : State) (m : Model Params) :
  reachable lib s -> model s = Some m ->
  split_present s /\ fitted_on_current_split lib s m
  /\ model_name s = Some (display_name (estimator m)).
Proof.
  intros Hreach Hm. apply (invariant_reachable s Hreach). exact Hm.
Qed.

(** C9: without a split, [train_model] answers with a precondition error
    and stores nothing; without a model, [get_results] answers with a
    precondition error and changes nothing. *)
Theorem train_and_results_need_their_stage (req : TrainRequest) (s : State) :
  (X_train s = None ->
   fails_with PreconditionError (train_model lib req) s
   /\ snd (train_model lib req s) = s)
  /\ (model s = None ->
      fails_with PreconditionError (get_results lib) s
      /\ snd (get_results lib s) = s).
Proof.
  split; intros H.
  - assert (E : train_model lib req s = (Raise (HTTPException DataNotSplit), s)).
    { remember (train_model lib req s) as out eqn:E.
      unfold_handler E. rewrite H in E. exact E. }
    unfold fails_with. rewrite E. split; [|reflexivity].
    exists DataNotSplit. split; reflexivity.
  - assert (E : get_results lib s = (Raise (HTTPException NoModelTrained), s)).
    { remember (get_results lib s) as out eqn:E.
      unfold_handler E. rewrite H in E. exact E. }
    unfold fails_with. rewrite E. split; [|reflexivity].
    exists NoModelTrained. split; reflexivity.
Qed.

Lemma status_flags (s : State) :
  exists body,
    get_pipeline_status s = (Ok body, s)
    /\ Json.get "train" body = Some (JBool (is_not_None (model s)))
    /\ Json.get "results" body = Json.get "train" body.
Proof.
  remember (get_pipeline_status s) as out eqn:E.
  exec E; subst out; eexists; repeat split.
Qed.

(** C10: in the status report the flag [results] equals the flag [train]:
    both say whether a model is stored, so the last stage is reported as
    reached as soon as a model is trained, whether or not [get_results]
    was ever called. *)
Theorem status_reports_results_with_train (s : State) :
  exists body,
    get_pipeline_status s = (Ok body, s)
    /\ Json.get "train" body = Some (JBool (is_not_None (model s)))
    /\ Json.get "results" body = Json.get "train" body.
Proof.
  exact (status_flags s).
Qed.

(** After an accepted training request the status reports [results],
    though no results were asked for. *)
Corollary status_after_training (req : TrainRequest) (s : State) :
  succeeds (train_model lib req) s ->
  exists body,
    fst (get_pipeline_status (snd (train_model lib req s))) = Ok body
    /\ Json.get "results" body = Some (JBool true).
Proof.
  intros [b Hb].
  destruct (train_model_cases lib req s)
    as [[d E] | (est & fitted & X & y & body & _ & _ & _ & E)];
    rewrite E in Hb |- *; cbn [fst snd] in *; [discriminate|].
  destruct (status_flags
              (set_model_name Params (Some (display_name est))
                 (set_model Params (Some (mkModel est fitted)) s)))
    as (sb & Es & Ht & Hr).
  exists sb. rewrite Es. split; [reflexivity|]. rewrite Hr, Ht. reflexivity.
Qed.

End SplitAndModel.
(** ** [pd.factorize] hands out codes in first-seen order *)

Section FactorizeFacts.

Import Factorize.

Lemma cell_eqb_refl c : isna c = false -> cell_eqb c c = true.
Proof.
  destruct c as [z|f|x|b|]; cbn; intros H.
  - apply Z.eqb_refl.
  - unfold PrimFloat.is_nan in H. apply negb_false_iff in H. exact H.
  - apply String.eqb_refl.
  - destruct b; reflexivity.
  - reflexivity.
Qed.

Lemma cell_eqb_exact a x : exact a = true -> cell_eqb a x = true -> x = a.
Proof.
  destruct a as [z|f|u|b|]; destruct x as [z'|f'|u'|b'|]; cbn;
    intros E H; try discriminate; try reflexivity.
  - apply Z.eqb_eq in H. congruence.
  - apply String.eqb_eq in H. congruence.
  - apply Bool.eqb_prop in H. congruence.
Qed.

Lemma index_of_app_found c u ext i :
  index_of c u = Some i -> index_of c (u ++ ext)%list = Some i.
Proof.
  revert i. induction u as [|x u IH]; cbn; intros i H; [discriminate|].
  destruct (cell_eqb c x); [exact H|].
  destruct (index_of c u) as [j|]; [|discriminate].
  rewrite (IH j eq_refl). exact H.
Qed.

Lemma index_of_app_fresh c u ext :
  index_of c u = None -> cell_eqb c c = true ->
  index_of c (u ++ c :: ext)%list = Some (length u).
Proof.
  intros Hnone Hrefl. induction u as [|x u IH]; cbn in *.
  - rewrite Hrefl. reflexivity.
  - destruct (cell_eqb c x); [discriminate|].
    destruct (index_of c u) as [j|]; [discriminate|].
    rewrite (IH eq_refl). reflexivity.
Qed.

Lemma index_of_sound c u i :
  index_of c u = Some i -> exists x, nth_error u i = Some x /\ cell_eqb c x = true.
Proof.
  revert i. induction u as [|y u IH]; cbn; intros i H; [discriminate|].
  destruct (cell_eqb c y) eqn:E.
  - injection H as <-. exists y. split; [reflexivity | exact E].
  - destruct (index_of c u) as [j|]; [|discriminate].
    injection H as <-. apply (IH j eq_refl).
Qed.

(** The table of distinct values only grows at its end. *)
Lemma uniques_acc_extends l u : exists ext, uniques_acc u l = (u ++ ext)%list.
Proof.
  revert u. induction l as [|c r IH]; intros u; cbn.
  - exists []. symmetry. apply app_nil_r.
  - destruct (isna c); [apply IH|].
    destruct (index_of c u); [apply IH|].
    destruct (IH (u ++ [c])%list) as [ext E]. exists (c :: ext).
    rewrite E, <- app_assoc. reflexivity.
Qed.

(** Every code is the position of its entry in the final table. *)
Lemma codes_acc_table l u :
  Forall2 (fun c k => if isna c then k = (-1)%Z
                      else exists i, index_of c (uniques_acc u l) = Some i
                                     /\ k = Z.of_nat i)
          l (codes_acc u l).
Proof.
  revert u. induction l as [|c r IH]; intros u; cbn; [constructor|].
  destruct (isna c) eqn:Hna.
  - constructor; [rewrite Hna; reflexivity | apply IH].
  - destruct (index_of c u) as [i|] eqn:Hi.
    + constructor; [|apply IH]. rewrite Hna. exists i. split; [|reflexivity].
      destruct (uniques_acc_extends r u) as [ext ->].
      apply index_of_app_found. exact Hi.
    + constructor; [|apply IH]. rewrite Hna. exists (length u).
      split; [|reflexivity].
      destruct (uniques_acc_extends r (u ++ [c])%list) as [ext ->].
      rewrite <- app_assoc. cbn [app].
      apply index_of_app_fresh; [exact Hi | apply cell_eqb_refl; exact Hna].
Qed.

Lemma Forall2_at {A B} (R : A -> B -> Prop) l1 l2 i a :
  Forall2 R l1 l2 -> nth_error l1 i = Some a ->
  exists b, nth_error l2 i = Some b /\ R a b.
Proof.
  intros H. revert i. induction H as [|x y l1 l2 Hxy _ IH]; intros i Hi.
  - destruct i; discriminate.
  - destruct i as [|i]; cbn in *.
    + injection Hi as <-. exists y. split; [reflexivity | exact Hxy].
    + apply IH. exact Hi.
Qed.

(** A code is at most one more than the codes before it: fresh codes are
    handed out in the order 0, 1, 2, ... *)
Lemma codes_acc_next l u l1 k l2 :
  codes_acc u l = (l1 ++ k :: l2)%list ->
  (-1 <= k <= Z.max (Z.of_nat (length u)) (next_code l1))%Z.
Proof.
  revert u l1. induction l as [|c r IH]; intros u l1 E; cbn in E.
  - destruct l1; discriminate.
  - assert (Hmono : forall x l1', (next_code l1' <= next_code (x :: l1'))%Z
                                  /\ (x + 1 <= next_code (x :: l1'))%Z).
    { intros x l1'. unfold next_code. cbn [fold_right]. lia. }
    assert (Hnil : next_code [] = 0%Z) by reflexivity.
    assert (Hlen : forall x : cell,
               length (u ++ [x])%list = S (length u)).
    { intros x. rewrite length_app. cbn. lia. }
    destruct (isna c).
    + destruct l1 as [|x l1']; injection E as <- E.
      * lia.
      * specialize (IH u l1' E). destruct (Hmono (-1)%Z l1'). lia.
    + destruct (index_of c u) as [i|] eqn:Hi.
      * assert (Hlt : (i < length u)%nat).
        { destruct (index_of_sound c u i Hi) as [x [Hx _]].
          apply nth_error_Some. rewrite Hx. discriminate. }
        destruct l1 as [|x l1']; injection E as <- E.
        -- lia.
        -- specialize (IH u l1' E). destruct (Hmono (Z.of_nat i) l1'). lia.
      * destruct l1 as [|x l1']; injection E as <- E.
        -- lia.
        -- specialize (IH (u ++ [c])%list l1' E). rewrite Hlen in IH.
           destruct (Hmono (Z.of_nat (length u)) l1'). lia.
Qed.

Lemma codes_length l : length (codes l) = length l.
Proof.
  unfold codes. generalize (@nil cell) as u.
  induction l as [|c r IH]; intros u; cbn; [reflexivity|].
  destruct (isna c); cbn; [rewrite IH; reflexivity|].
  destruct (index_of c u); cbn; rewrite IH; reflexivity.
Qed.

(** The code at a position: -1 for a missing entry, otherwise a code that
    is at most the next fresh one after the codes before it. *)
Lemma codes_first_seen l i a :
  nth_error l i = Some a ->
  exists k, nth_error (codes l) i = Some k
            /\ (if isna a then k = (-1)%Z
                else (0 <= k <= next_code (firstn i (codes l)))%Z).
Proof.
  intros Hi.
  destruct (Forall2_at _ _ _ _ _ (codes_acc_table l []) Hi) as [k [Hk HR]].
  exists k. split; [exact Hk|].
  destruct (isna a); [exact HR|].
  destruct HR as [j [_ ->]]. split; [lia|].
  destruct (nth_error_split _ _ Hk) as (l1 & l2 & E & Hlen).
  unfold codes. rewrite E. rewrite <- Hlen.
  rewrite firstn_app, firstn_all, Nat.sub_diag. cbn [firstn]. rewrite app_nil_r.
  pose proof (codes_acc_next l [] l1 (Z.of_nat j) l2 E) as B. cbn [length] in B.
  assert (0 <= next_code l1)%Z.
  { unfold next_code. clear. induction l1; cbn; lia. }
  lia.
Qed.

(** Two entries that are not floats get the same code exactly when they
    are the same value. *)
Lemma codes_same_value l i j a b :
  nth_error l i = Some a -> nth_error l j = Some b ->
  isna a = false -> isna b = false -> exact a = true -> exact b = true ->
  (nth_error (codes l) i = nth_error (codes l) j <-> a = b).
Proof.
  intros Hi Hj Ha Hb Ea Eb.
  destruct (Forall2_at _ _ _ _ _ (codes_acc_table l []) Hi) as [ka [Hka Ra]].
  destruct (Forall2_at _ _ _ _ _ (codes_acc_table l []) Hj) as [kb [Hkb Rb]].
  rewrite Ha in Ra. rewrite Hb in Rb.
  destruct Ra as [ia [Hia ->]]. destruct Rb as [ib [Hib ->]].
  unfold codes. rewrite Hka, Hkb. split.
  - intros H. injection H as H. apply Nat2Z.inj in H. subst ib.
    destruct (index_of_sound _ _ _ Hia) as [x [Hx Hax]].
    destruct (index_of_sound _ _ _ Hib) as [y [Hy Hby]].
    rewrite Hx in Hy. injection Hy as <-.
    apply (cell_eqb_exact _ _ Ea) in Hax. apply (cell_eqb_exact _ _ Eb) in Hby.
    congruence.
  - intros <-. rewrite Hia in Hib. injection Hib as <-. reflexivity.
Qed.

End FactorizeFacts.

(** ** Splitting *)

Section Splitting.

Context {Params : Type} (lib : Library Params).

Local Abbreviation State := (SessionState Params).

Lemma mem_In x l : Str.mem x l = true <-> In x l.
Proof.
  unfold Str.mem. rewrite existsb_exists. split.
  - intros [y [Hy E]]. apply String.eqb_eq in E. subst y. exact Hy.
  - intros H. exists x. split; [exact H | apply String.eqb_refl].
Qed.

Lemma mem_not_In x l : Str.mem x l = false <-> ~ In x l.
Proof.
  rewrite <- mem_In. destruct (Str.mem x l); split; intros H;
    try reflexivity; try discriminate; try (intros H'; discriminate).
  exfalso. apply H. reflexivity.
Qed.

Lemma test_size_ok_within ts : test_size_ok ts = true <-> within 0.1 0.5 ts.
Proof. unfold test_size_ok, within. apply andb_true_iff. Qed.

(** The two checks of [split_data], in their order, and what can still go
    wrong once both have passed. *)
Lemma split_data_checks req (s : State) df :
  processed_df s = Some df ->
  (Str.mem (sp_target_column req) (DF.columns df) = false ->
   split_data lib req s =
     (Raise (HTTPException (TargetNotFound (sp_target_column req) (DF.columns df))), s))
  /\ (Str.mem (sp_target_column req) (DF.columns df) = true ->
      test_size_ok (sp_test_size req) = false ->
      split_data lib req s = (Raise (HTTPException TestSizeOutOfRange), s))
  /\ (Str.mem (sp_target_column req) (DF.columns df) = true ->
      test_size_ok (sp_test_size req) = true ->
      forall e, fst (split_data lib req s) = Raise e ->
                exists o, e = HTTPException (ErrorDuringSplit (Exception o))).
Proof.
  intros Hdf.
  remember (split_data lib req s) as out eqn:E.
  unfold_handler E. rewrite Hdf in E. cbv beta iota in E.
  split; [|split].
  - intros Hmem. rewrite Hmem in E. exact E.
  - intros Hmem Hts. rewrite Hmem, Hts in E. exact E.
  - intros Hmem Hts. rewrite Hmem, Hts in E. cbn [negb] in E. cbv beta iota in E.
    repeat exec_step E; subst out; cbn [fst]; intros e He;
      try discriminate He; injection He as <-; eexists; reflexivity.
Qed.

(** An accepted split stores what [train_test_split] returns for the
    encoded features and the labels. *)
Lemma split_data_accepted req (s : State) body :
  fst (split_data lib req s) = Ok body ->
  exists df y X_tr X_te y_tr y_te,
    processed_df s = Some df
    /\ DF.getitem df (sp_target_column req) = Some y
    /\ train_test_split lib
         (encode_features (DF.drop df (sp_target_column req))) y
         (sp_test_size req) (sp_random_state req)
         (1 <? length (Factorize.unique (values y)))%nat
       = Some (X_tr, X_te, y_tr, y_te)
    /\ snd (split_data lib req s) =
         split_store X_tr X_te y_tr y_te (sp_target_column req)
           (DF.columns (DF.drop df (sp_target_column req))) s.
Proof.
  remember (split_data lib req s) as out eqn:E.
  exec E; subst out; cbn [fst snd]; intros H; try discriminate H.
  do 6 eexists. repeat split; try eassumption.
Qed.

Lemma encode_features_nth X i col :
  nth_error X i = Some col ->
  nth_error (encode_features X) i =
    Some (if is_object (dtype col)
          then mkSeries (name col) int64 (map CInt (Factorize.codes (values col)))
          else col).
Proof.
  intros H. unfold encode_features. rewrite nth_error_map, H. reflexivity.
Qed.

(** C6, as the code has it: when a split is accepted, what is partitioned
    is the table of the feature columns (all columns but the target) in
    which every column of dtype [object] is replaced, column by column, by
    its integer codes, and every other column, numeric or not, is left as
    it is.  The codes of a column are handed out in first-seen order: a
    missing entry gets -1, any other entry a code from 0 up that is at most
    the next fresh code, and two entries that are not floats get the same
    code exactly when they are the same value. *)
Theorem split_encodes_object_features req (s : State) body :
  fst (split_data lib req s) = Ok body ->
  exists df y X_tr X_te y_tr y_te,
    processed_df s = Some df
    /\ DF.getitem df (sp_target_column req) = Some y
    /\ train_test_split lib
         (encode_features (DF.drop df (sp_target_column req))) y
         (sp_test_size req) (sp_random_state req)
         (1 <? length (Factorize.unique (values y)))%nat
       = Some (X_tr, X_te, y_tr, y_te)
    /\ X_train (snd (split_data lib req s)) = Some X_tr
    /\ X_test (snd (split_data lib req s)) = Some X_te
    /\ (forall i col,
           nth_error (DF.drop df (sp_target_column req)) i = Some col ->
           nth_error (encode_features (DF.drop df (sp_target_column req))) i =
             Some (if is_object (dtype col)
                   then mkSeries (name col) int64
                          (map CInt (Factorize.codes (values col)))
                   else col))
    /\ (forall (l : list cell) i a,
           nth_error l i = Some a ->
           exists k, nth_error (Factorize.codes l) i = Some k
                     /\ (if isna a then k = (-1)%Z
                         else (0 <= k <= next_code (firstn i (Factorize.codes l)))%Z))
    /\ (forall (l : list cell) i j a b,
           nth_error l i = Some a -> nth_error l j = Some b ->
           isna a = false -> isna b = false -> exact a = true -> exact b = true ->
           (nth_error (Factorize.codes l) i = nth_error (Factorize.codes l) j
            <-> a = b)).
Proof.
  intros H.
  destruct (split_data_accepted req s body H)
    as (df & y & X_tr & X_te & y_tr & y_te & Hdf & Hy & Hsplit & Hs).
  exists df, y, X_tr, X_te, y_tr, y_te.
  rewrite Hs. repeat split; try assumption.
  - apply encode_features_nth.
  - apply codes_first_seen.
  - apply codes_same_value; assumption.
  - intros <-. apply (codes_same_value l i j a a); try assumption. reflexivity.
Qed.

(** C7: with a working table in the session, [split_data] answers with a
    validation error exactly when the target is not one of the columns or
    [test_size] is not within [0.1, 0.5]; so it does for [test_size = 0.6],
    and it does not for [test_size] 0.1 or 0.5 and a target that is a
    column. *)
Theorem split_validation req (s : State) df :
  processed_df s = Some df ->
  (fails_with ValidationError (split_data lib req) s
   <-> (~ In (sp_target_column req) (DF.columns df)
        \/ ~ within 0.1 0.5 (sp_test_size req)))
  /\ (sp_test_size req = 0.6%float ->
      fails_with ValidationError (split_data lib req) s)
  /\ (sp_test_size req = 0.1%float \/ sp_test_size req = 0.5%float ->
      In (sp_target_column req) (DF.columns df) ->
      ~ fails_with ValidationError (split_data lib req) s).
Proof.
  intros Hdf.
  destruct (split_data_checks req s df Hdf) as (Htarget & Hsize & Hpast).
  assert (Hbad : Str.mem (sp_target_column req) (DF.columns df) = false
                 \/ test_size_ok (sp_test_size req) = false ->
                 fails_with ValidationError (split_data lib req) s).
  { intros Hor. unfold fails_with.
    destruct (Str.mem (sp_target_column req) (DF.columns df)) eqn:Hmem.
    - destruct Hor as [Hor|Hor]; [discriminate|].
      rewrite (Hsize eq_refl Hor). eexists. split; reflexivity.
    - rewrite (Htarget eq_refl). eexists. split; reflexivity. }
  assert (Hgood : Str.mem (sp_target_column req) (DF.columns df) = true ->
                  test_size_ok (sp_test_size req) = true ->
                  ~ fails_with ValidationError (split_data lib req) s).
  { intros Hmem Hts [d [Hd Hk]].
    destruct (Hpast Hmem Hts _ Hd) as [o Ho]. injection Ho as ->.
    discriminate Hk. }
  split; [split|split].
  - intros Hfail.
    destruct (Str.mem (sp_target_column req) (DF.columns df)) eqn:Hmem.
    + right. intros Hin. apply test_size_ok_within in Hin.
      exact (Hgood eq_refl Hin Hfail).
    + left. apply mem_not_In. exact Hmem.
  - intros [Hnot | Hout]; apply Hbad.
    + left. apply mem_not_In. exact Hnot.
    + right. destruct (test_size_ok (sp_test_size req)) eqn:Hts; [|reflexivity].
      exfalso. apply Hout. apply test_size_ok_within. exact Hts.
  - intros Hts. apply Hbad. right. rewrite Hts. reflexivity.
  - intros Hts Hin. apply Hgood.
    + apply mem_In. exact Hin.
    + destruct Hts as [-> | ->]; reflexivity.
Qed.

End Splitting.

(** ** Preprocessing *)

Section Preprocessing.

Context {Params : Type} (lib : Library Params).

Local Abbreviation State := (SessionState Params).

Lemma filter_nil {A} (f : A -> bool) l :
  filter f l = [] <-> forall x, In x l -> f x = false.
Proof.
  induction l as [|a l IH]; cbn.
  - split; [intros _ x [] | reflexivity].
  - destruct (f a) eqn:Fa.
    + split; [discriminate|]. intros H. rewrite (H a) in Fa; [discriminate|].
      left. reflexivity.
    + rewrite IH. split.
      * intros H x [<-|Hx]; [exact Fa | apply H; exact Hx].
      * intros H x Hx. apply H. right. exact Hx.
Qed.





(** Preprocessing never writes the original table. *)
Lemma preprocess_data_original req (s : State) :
  original_df (snd (preprocess_data lib req s)) = original_df s.
Proof.
  destruct (preprocess_data_cases lib req s) as [[d E] | (df & r & msg & E & _)];
    rewrite E; reflexivity.
Qed.

Lemma run_preprocess_original reqs (s : State) :
  original_df (run lib (map PostPreprocess reqs) s) = original_df s.
Proof.
  revert s. induction reqs as [|req reqs IH]; intros s; cbn; [reflexivity|].
  fold (run lib (map PostPreprocess reqs) (after lib (PostPreprocess req) s)).
  rewrite IH. apply preprocess_data_original.
Qed.

(** C4: after an accepted upload and any sequence of accepted
    preprocessing requests, [reset_preprocessing] is accepted, and then the
    working table is the original table again, which is the table read
    from the uploaded file (infinities replaced), and no transformation is
    recorded. *)
Theorem reset_preprocessing_restores_upload f c reqs (s0 : State) :
  all_succeed lib (PostUpload f c :: map PostPreprocess reqs) s0 ->
  exists df,
    read_file lib f c = Some df
    /\ original_df (after lib (PostUpload f c) s0) = Some (DF.replace_inf df)
    /\ processed_df (after lib (PostUpload f c) s0) = Some (DF.replace_inf df)
    /\ succeeds reset_preprocessing
         (run lib (PostUpload f c :: map PostPreprocess reqs) s0)
    /\ processed_df
         (after lib PostResetPreprocessing
            (run lib (PostUpload f c :: map PostPreprocess reqs) s0))
       = Some (DF.replace_inf df)
    /\ original_df
         (after lib PostResetPreprocessing
            (run lib (PostUpload f c :: map PostPreprocess reqs) s0))
       = Some (DF.replace_inf df)
    /\ transformations_applied
         (after lib PostResetPreprocessing
            (run lib (PostUpload f c :: map PostPreprocess reqs) s0))
       = [].
Proof.
  intros [Hup _]. cbn [serve] in Hup.
  change (run lib (PostUpload f c :: map PostPreprocess reqs) s0)
    with (run lib (map PostPreprocess reqs) (after lib (PostUpload f c) s0)).
  destruct (upload_dataset_accepted lib f c s0 Hup) as (df & Hread & Hrenders & E & _).
  assert (Hs1 : after lib (PostUpload f c) s0 = upload_store (DF.replace_inf df) s0).
  { exact E. }
  rewrite Hs1. exists df.
  split; [exact Hread|]. split; [reflexivity|]. split; [reflexivity|].
  pose proof (run_preprocess_original reqs (upload_store (DF.replace_inf df) s0))
    as Hkeep.
  set (s2 := run lib (map PostPreprocess reqs) (upload_store (DF.replace_inf df) s0))
    in *.
  cbn [original_df upload_store] in Hkeep.
  unfold after, succeeds. cbn [serve].
  destruct (reset_preprocessing_cases s2)
    as [[Hnone _] | (df' & r & Horig & E' & Hr)].
  - rewrite Hkeep in Hnone. discriminate Hnone.
  - rewrite E'. cbn [fst snd]. rewrite Hkeep in Horig. injection Horig as <-.
    unfold rendered in Hr. rewrite Hrenders in Hr.
    split; [exact Hr|].
    split; [reflexivity|]. split; [exact Hkeep | reflexivity].
Qed.

End Preprocessing.

(** ** Refused requests *)

Section Refusals.

Context {Params : Type} (lib : Library Params).

Local Abbreviation State := (SessionState Params).

(** A split that answers with an error has left the session alone, unless
    the error came after the split was stored. *)
Lemma split_data_refused req (s : State) e :
  fst (split_data lib req s) = Raise e ->
  snd (split_data lib req s) = s
  \/ (raised_after_writing e = true
      /\ exists X_tr X_te y_tr y_te features,
           snd (split_data lib req s) =
             split_store X_tr X_te y_tr y_te (sp_target_column req) features s).
Proof.
  remember (split_data lib req s) as out eqn:E.
  exec E; subst out; cbn [fst snd]; intros H; try discriminate H;
    injection H as <-;
    solve [ left; reflexivity
          | right; split; [reflexivity | do 5 eexists; reflexivity] ].
Qed.

(** A split whose response does not render has stored the split and
    cleared the model. *)
Lemma split_data_unrendered req (s : State) :
  fst (split_data lib req s)
  = Raise (HTTPException (ErrorDuringSplit (Exception json_dumps))) ->
  exists X_tr X_te y_tr y_te features,
    snd (split_data lib req s) =
      split_store X_tr X_te y_tr y_te (sp_target_column req) features s.
Proof.
  remember (split_data lib req s) as out eqn:E.
  exec E; subst out; cbn [fst snd]; intros H; try discriminate H;
    do 5 eexists; reflexivity.
Qed.

Lemma reset_pipeline_ok (s : State) : exists body, fst (reset_pipeline s) = Ok body.
Proof.
  remember (reset_pipeline s) as out eqn:E.
  exec E; subst out; eexists; reflexivity.
Qed.

(** A request answered with an error has left the session as it was,
    unless the error was raised after the handler wrote the session: the
    [ValueError] of a response body that does not render, in an upload, a
    preprocessing, a reset of the preprocessing or a split. *)
Lemma refused_request_keeps_session r (s : State) e :
  fst (serve lib r s) = Raise e ->
  after lib r s = s \/ raised_after_writing e = true.
Proof.
  unfold after. destruct r as [f c| |req| |req|req| | |]; cbn [serve]; intros H.
  - destruct (upload_dataset_cases lib f c s) as [[d E] | (df & r & _ & _ & E & Hr)];
      rewrite E in *; [left; reflexivity|].
    right. unfold rendered in Hr. cbn [fst] in H.
    destruct (Json.compliant (df_to_json (DF.replace_inf df))).
    + destruct Hr as [body ->]. discriminate H.
    + rewrite Hr in H. injection H as <-. reflexivity.
  - left. apply get_dataset_session.
  - destruct (preprocess_data_cases lib req s) as [[d E] | (df & r & m & E & Hr)];
      rewrite E in *; [left; reflexivity|].
    right. unfold rendered in Hr. cbn [fst] in H.
    destruct (Json.compliant (df_to_json df)).
    + destruct Hr as [body ->]. discriminate H.
    + rewrite Hr in H. injection H as <-. reflexivity.
  - destruct (reset_preprocessing_cases s) as [[_ E] | (df & r & _ & E & Hr)];
      rewrite E in *; [left; reflexivity|].
    right. unfold rendered in Hr. cbn [fst] in H.
    destruct (Json.compliant (df_to_json df)).
    + destruct Hr as [body ->]. discriminate H.
    + rewrite Hr in H. injection H as <-. reflexivity.
  - destruct (split_data_refused req s e H) as [E | [He _]].
    + left. exact E.
    + right. exact He.
  - left. destruct (train_model_cases lib req s)
      as [[d E] | (est & p & X & y & b & _ & _ & _ & E)];
      rewrite E in *; [reflexivity | discriminate H].
  - left. apply get_results_session.
  - left. destruct (get_pipeline_status_ok s) as [b E]. rewrite E. reflexivity.
  - destruct (reset_pipeline_ok s) as [b E]. rewrite E in H. discriminate H.
Qed.

End Refusals.

(** ** The handlers on the example sessions *)

Section Examples.

Import Demo Example.

(** C1, on the code: an upload into a session that holds a split and a
    trained model is accepted and clears [model] and the four tables of the
    split, but [model_name], [target_column] and [feature_columns] keep the
    values of the old split and model, and the status report shows them. *)
Theorem upload_keeps_names_of_old_split_and_model :
  succeeds (upload_dataset L "patients.csv" csv) trained
  /\ model (after L (PostUpload "patients.csv" csv) trained) = None
  /\ X_train (after L (PostUpload "patients.csv" csv) trained) = None
  /\ X_test (after L (PostUpload "patients.csv" csv) trained) = None
  /\ y_train (after L (PostUpload "patients.csv" csv) trained) = None
  /\ y_test (after L (PostUpload "patients.csv" csv) trained) = None
  /\ model_name (after L (PostUpload "patients.csv" csv) trained)
     = Some "Decision Tree Classifier"
  /\ target_column (after L (PostUpload "patients.csv" csv) trained) = Some "label"
  /\ feature_columns (after L (PostUpload "patients.csv" csv) trained)
     = Some ["age"; "smoker"; "city"]
  /\ option_map (Json.get "details")
       (match fst (get_pipeline_status (after L (PostUpload "patients.csv" csv) trained))
        with Ok body => Some body | Raise _ => None end)
     = Some (Some (JDict [ ("dataset_rows", JInt 4);
                           ("transformations", JList []);
                           ("model_name", JStr "Decision Tree Classifier");
                           ("target_column", JStr "label") ])).
Proof.
  split; [eexists; vm_compute; reflexivity|].
  repeat split; vm_compute; reflexivity.
Qed.

(** C3, on the code: a split on a target column without a single entry is
    answered with an error, since the list of target classes holds [nan]
    and the response cannot be rendered; but by then the split is stored.
    Whatever the library, the request and the session, a split answered
    with this error has stored a split and cleared the model and its name,
    so a model trained before is gone. *)
Theorem refused_split_changes_session :
  fst (split_data U (split_on "y") uploaded_unlabelled)
  = Raise (HTTPException (ErrorDuringSplit (Exception json_dumps)))
  /\ X_train uploaded_unlabelled = None
  /\ X_train (snd (split_data U (split_on "y") uploaded_unlabelled))
     = Some [mkSeries "a" int64 [CInt 1; CInt 2]]
  /\ snd (split_data U (split_on "y") uploaded_unlabelled) <> uploaded_unlabelled
  /\ (forall (P : Type) (lib : Library P) req (s : SessionState P),
        fst (split_data lib req s)
        = Raise (HTTPException (ErrorDuringSplit (Exception json_dumps))) ->
        X_train (snd (split_data lib req s)) <> None
        /\ target_column (snd (split_data lib req s)) = Some (sp_target_column req)
        /\ model (snd (split_data lib req s)) = None
        /\ model_name (snd (split_data lib req s)) = None).
Proof.
  split; [vm_compute; reflexivity|]. split; [vm_compute; reflexivity|].
  split; [vm_compute; reflexivity|]. split.
  - intros H. apply (f_equal X_train) in H. vm_compute in H. discriminate H.
  - intros P lib req s H.
    destruct (split_data_unrendered lib req s H)
      as (X_tr & X_te & y_tr & y_te & features & E).
    rewrite E. cbn. repeat split. discriminate.
Qed.

End Examples.

(** ** Instances *)

Section Instances.

Import Demo Example.

(** The session [trained] is reachable and holds a decision tree. *)
Lemma trained_model_fits_current_split_witness :
  reachable L trained
  /\ model trained = Some (mkModel DecisionTreeClassifier [CInt 1; CInt 0])
  /\ split_present trained
  /\ fitted_on_current_split L trained
       (mkModel DecisionTreeClassifier [CInt 1; CInt 0])
  /\ model_name trained = Some "Decision Tree Classifier".
Proof.
  assert (R : reachable L trained).
  { unfold trained, split, uploaded. repeat apply reach_step. apply reach_init. }
  assert (M : model trained
              = Some (mkModel DecisionTreeClassifier [CInt 1; CInt 0])).
  { reflexivity. }
  split; [exact R|]. split; [exact M|].
  exact (trained_model_fits_current_split L trained _ R M).
Defined.

(** Upload [patients], standardise [age], reset. *)
Lemma reset_preprocessing_restores_upload_witness :
  all_succeed L
    (PostUpload "patients.csv" csv :: map PostPreprocess [standardize ["age"]])
    initial_state
  /\ processed_df
       (after L PostResetPreprocessing
          (run L (PostUpload "patients.csv" csv
                  :: map PostPreprocess [standardize ["age"]]) initial_state))
     = original_df
         (after L PostResetPreprocessing
            (run L (PostUpload "patients.csv" csv
                    :: map PostPreprocess [standardize ["age"]]) initial_state)).
Proof.
  assert (H : all_succeed L
                (PostUpload "patients.csv" csv
                 :: map PostPreprocess [standardize ["age"]]) initial_state).
  { cbn [all_succeed map]. repeat split; eexists; reflexivity. }
  split; [exact H|].
  destruct (reset_preprocessing_restores_upload L "patients.csv" csv
              [standardize ["age"]] initial_state H)
    as (df & _ & _ & _ & _ & Hp & Ho & _).
  rewrite Hp, Ho. reflexivity.
Defined.

(** The split of [patients] on [label] is accepted. *)
Lemma split_encodes_object_features_witness :
  succeeds (split_data L (halves "label")) uploaded
  /\ exists X_tr, X_train (snd (split_data L (halves "label") uploaded)) = Some X_tr.
Proof.
  assert (S : succeeds (split_data L (halves "label")) uploaded).
  { eexists. reflexivity. }
  split; [exact S|]. destruct S as [body Hb].
  destruct (split_encodes_object_features L (halves "label") uploaded body Hb)
    as (df & y & X_tr & X_te & y_tr & y_te & _ & _ & _ & HX & _).
  exists X_tr. exact HX.
Defined.

(** A test size of 0.6 is refused, one of 0.5 is not. *)
Lemma split_validation_witness :
  processed_df uploaded = Some patients
  /\ fails_with ValidationError (split_data L (mkSplitRequest "label" 0.6 42)) uploaded
  /\ ~ fails_with ValidationError (split_data L (mkSplitRequest "label" 0.5 42)) uploaded.
Proof.
  split; [reflexivity|]. split.
  - apply (proj1 (proj2 (split_validation L (mkSplitRequest "label" 0.6 42)
                           uploaded patients eq_refl))).
    reflexivity.
  - apply (proj2 (proj2 (split_validation L (mkSplitRequest "label" 0.5 42)
                           uploaded patients eq_refl))).
    + right. reflexivity.
    + cbn. tauto.
Defined.



(** Training and results on the initial session. *)
Lemma train_and_results_need_their_stage_witness :
  X_train (@initial_state Params) = None
  /\ model (@initial_state Params) = None
  /\ fails_with PreconditionError
       (train_model L (mkTrainRequest "decision_tree")) initial_state
  /\ fails_with PreconditionError (get_results L) initial_state.
Proof.
  split; [reflexivity|]. split; [reflexivity|].
  destruct (train_and_results_need_their_stage L (mkTrainRequest "decision_tree")
              initial_state) as [Htrain Hresults].
  split; [apply Htrain | apply Hresults]; reflexivity.
Defined.

(** C6, as stated, fails: the column [smoker] is a feature column and is
    not numeric, and yet it reaches the partition as the column of
    booleans it was, not as integer codes; the training rows of the
    accepted split hold booleans in it. *)
Lemma bool_feature_is_left_unencoded :
  In smoker (DF.drop patients "label")
  /\ is_number (dtype smoker) = false
  /\ DF.getitem (encode_features (DF.drop patients "label")) "smoker" = Some smoker
  /\ Factorize.encode smoker <> smoker
  /\ succeeds (split_data L (halves "label")) uploaded
  /\ exists col,
      option_map (fun X => DF.getitem X "smoker") (X_train split) = Some (Some col)
      /\ dtype col = bool_
      /\ length (values col) = 2%nat
      /\ forall c, In c (values col) -> c = CBool true \/ c = CBool false.
Proof.
  split; [cbn; tauto|]. split; [reflexivity|]. split; [reflexivity|].
  split; [discriminate|]. split; [eexists; reflexivity|].
  eexists. split; [reflexivity|]. split; [reflexivity|]. split; [reflexivity|].
  intros c [<- | [<- | []]]; [left | right]; reflexivity.
Qed.


End Instances.


(** ** Uploading and describing *)

Section Uploading.

Context {Params : Type} (lib : Library Params).

Local Abbreviation State := (SessionState Params).

(** The checks of [upload_dataset], in their order, and the upload that
    passes them. *)
Lemma upload_dataset_checks f c (s : State) :
  (allowed_extension f = false ->
   upload_dataset lib f c s = (Raise (HTTPException InvalidFileType), s))
  /\ (allowed_extension f = true -> read_file lib f c = None ->
      upload_dataset lib f c s =
        (Raise (HTTPException (ErrorProcessingFile (Exception pandas))), s))
  /\ (forall df, allowed_extension f = true -> read_file lib f c = Some df ->
                 DF.empty df = true ->
                 upload_dataset lib f c s = (Raise (HTTPException FileEmpty), s))
  /\ (forall df, allowed_extension f = true -> read_file lib f c = Some df ->
                 DF.empty df = false -> (length (DF.columns df) <? 2)%nat = true ->
                 upload_dataset lib f c s = (Raise (HTTPException TooFewColumns), s))
  /\ (forall df, allowed_extension f = true -> read_file lib f c = Some df ->
                 DF.empty df = false -> (length (DF.columns df) <? 2)%nat = false ->
                 exists r,
                   upload_dataset lib f c s = (r, upload_store (DF.replace_inf df) s)
                   /\ rendered (Json.compliant (df_to_json (DF.replace_inf df)))
                        (HTTPException (ErrorProcessingFile (Exception json_dumps)))
                        r).
Proof.
  remember (upload_dataset lib f c s) as out eqn:E.
  unfold allowed_extension, read_file. unfold_handler E.
  repeat split.
  - intros Hext. rewrite Hext in E. exact E.
  - intros Hext Hread. rewrite Hext in E. cbn [negb] in E. cbv beta iota in E.
    destruct (Str.endswith (Str.lower f) ".csv"); rewrite Hread in E; exact E.
  - intros df Hext Hread Hempty. rewrite Hext in E. cbn [negb] in E.
    cbv beta iota in E.
    destruct (Str.endswith (Str.lower f) ".csv"); rewrite Hread in E;
      cbv beta iota in E; rewrite Hempty in E; exact E.
  - intros df Hext Hread Hempty Hfew. rewrite Hext in E. cbn [negb] in E.
    cbv beta iota in E.
    destruct (Str.endswith (Str.lower f) ".csv"); rewrite Hread in E;
      cbv beta iota in E; rewrite Hempty in E; cbv beta iota in E;
      rewrite Hfew in E; exact E.
  - intros df Hext Hread Hempty Hfew. rewrite Hext in E. cbn [negb] in E.
    cbv beta iota in E.
    destruct (Str.endswith (Str.lower f) ".csv"); rewrite Hread in E;
      cbv beta iota in E; rewrite Hempty in E; cbv beta iota in E;
      rewrite Hfew in E; cbv beta iota in E;
      repeat exec_step E; subst out; eexists;
      (split; [reflexivity | settle_rendered]).
Qed.


(** Three refusals of an upload: a file name with another ending is a
    validation error whatever the content; a reader that raises is an
    operation error; a table without rows or with fewer than two columns is
    a validation error.  These three leave the session as it was; an
    upload that passes them has written the session before its response is
    rendered. *)
Theorem upload_refusals f c (s : State) :
  (allowed_extension f = false ->
   fails_with ValidationError (upload_dataset lib f c) s
   /\ snd (upload_dataset lib f c s) = s)
  /\ (allowed_extension f = true -> read_file lib f c = None ->
      fails_with OperationError (upload_dataset lib f c) s
      /\ snd (upload_dataset lib f c s) = s)
  /\ (forall df, allowed_extension f = true -> read_file lib f c = Some df ->
                 DF.empty df = true \/ (length (DF.columns df) < 2)%nat ->
                 fails_with ValidationError (upload_dataset lib f c) s
                 /\ snd (upload_dataset lib f c s) = s).
Proof.
  destruct (upload_dataset_checks f c s) as (Hext & Hnone & Hempty & Hfew & _).
  unfold fails_with. split; [|split].
  - intros Ha. rewrite (Hext Ha). split; [|reflexivity].
    eexists. split; reflexivity.
  - intros Ha Hr. rewrite (Hnone Ha Hr). split; [|reflexivity].
    eexists. split; reflexivity.
  - intros df Ha Hr Hbad.
    assert (E : exists d, upload_dataset lib f c s = (Raise (HTTPException d), s)
                          /\ kind_of d = ValidationError).
    { destruct (DF.empty df) eqn:Ee.
      - exists FileEmpty. split; [apply (Hempty df Ha Hr Ee) | reflexivity].
      - destruct Hbad as [Hbad | Hbad]; [discriminate Hbad|].
        apply Nat.ltb_lt in Hbad. exists TooFewColumns.
        split; [apply (Hfew df Ha Hr Ee Hbad) | reflexivity]. }
    destruct E as (d & E & Hk). rewrite E. split; [|reflexivity].
    exists d. split; [reflexivity | exact Hk].
Qed.

Lemma replace_inf_no_infinity df : no_infinity (DF.replace_inf df).
Proof.
  intros col f Hcol Hf. unfold DF.replace_inf, DF.map_cells in Hcol.
  apply in_map_iff in Hcol. destruct Hcol as [col0 [<- _]]. cbn [values] in Hf.
  apply in_map_iff in Hf. destruct Hf as [c [Hc _]].
  destruct c as [z|g|x|b|]; try discriminate Hc.
  destruct (PrimFloat.is_infinity g) eqn:Hg; injection Hc as <-;
    [reflexivity | exact Hg].
Qed.

Lemma shape_replace_inf df : shape (DF.replace_inf df) = shape df.
Proof.
  unfold shape, DF.replace_inf, DF.map_cells. rewrite map_map.
  apply map_ext. intros col. cbn. rewrite length_map. reflexivity.
Qed.

Lemma columns_replace_inf df : DF.columns (DF.replace_inf df) = DF.columns df.
Proof.
  unfold DF.columns, DF.replace_inf, DF.map_cells. rewrite map_map. reflexivity.
Qed.

Lemma replace_inf_replaces df : infinities_replaced df (DF.replace_inf df).
Proof.
  unfold infinities_replaced, DF.replace_inf, DF.map_cells.
  induction df as [|col df IH]; cbn [map]; constructor; [|exact IH].
  cbn [name dtype values]. split; [reflexivity|]. split; [reflexivity|].
  induction (values col) as [|c l IHl]; cbn [map]; constructor; [|exact IHl].
  destruct c as [z|g|x|b|]; unfold stored_as; try reflexivity.
  destruct (PrimFloat.is_infinity g); reflexivity.
Qed.

(** Whenever a file passes the checks on its name, its parsing, its rows
    and its columns, the session holds, as the original and as the working
    table, the table read from the file with its labels and dtypes, every
    infinity replaced by [nan] and every other entry as read; this is so
    whether the upload is then answered or its response fails to render. *)
Theorem upload_stores_table_without_infinities f c (s : State) parsed :
  allowed_extension f = true ->
  read_file lib f c = Some parsed ->
  DF.empty parsed = false ->
  (2 <= length (DF.columns parsed))%nat ->
  exists stored,
    original_df (snd (upload_dataset lib f c s)) = Some stored
    /\ processed_df (snd (upload_dataset lib f c s)) = Some stored
    /\ infinities_replaced parsed stored
    /\ no_infinity stored.
Proof.
  intros Ha Hr He Hl. apply Nat.ltb_ge in Hl.
  destruct (upload_dataset_checks f c s) as (_ & _ & _ & _ & Hok).
  destruct (Hok parsed Ha Hr He Hl) as (r & E & _).
  exists (DF.replace_inf parsed). rewrite E. cbn [snd].
  split; [reflexivity|]. split; [reflexivity|].
  split; [apply replace_inf_replaces | apply replace_inf_no_infinity].
Qed.

End Uploading.

(** ** Previews and read-only endpoints *)

Section Describing.

Context {Params : Type} (lib : Library Params).

Local Abbreviation State := (SessionState Params).


(** The body [get_dataset] builds for a working table. *)
Lemma get_dataset_body (s : State) df :
  processed_df s = Some df ->
  exists body,
    get_dataset s
    = (if Json.compliant (df_to_json df) then Ok body
       else Raise (Exception json_dumps), s)
    /\ field "dataset_info" "rows" body = Some (Json.of_nat (DF.len df))
    /\ field "dataset_info" "columns" body = Some (Json.of_nat (length df))
    /\ field "dataset_info" "column_names" body = Some (Json.strs (DF.columns df))
    /\ Json.get "transformations_applied" body
       = Some (Json.strs (transformations_applied s)).
Proof.
  intros H.
  exists (JDict [ ("success", JBool true);
                  ("dataset_info",
                   JDict [ ("rows", Json.of_nat (DF.len df));
                           ("columns", Json.of_nat (length (DF.columns df)));
                           ("column_names", Json.strs (DF.columns df));
                           ("dtypes", dtypes_dict df) ]);
                  ("preview", df_to_json df);
                  ("transformations_applied",
                   Json.strs (transformations_applied s)) ]).
  split.
  - remember (get_dataset s) as out eqn:E. unfold_handler E. rewrite H in E.
    cbv beta iota in E. repeat exec_step E; subst out; reflexivity.
  - unfold field, DF.columns. cbn. rewrite length_map. repeat split.
Qed.


(** The row and column counts that [get_dataset] reports after an accepted
    upload are those of the table read from the file, and no
    transformation is reported. *)
Theorem get_dataset_after_upload f c (s : State) :
  succeeds (upload_dataset lib f c) s ->
  exists parsed body,
    read_file lib f c = Some parsed
    /\ fst (get_dataset (snd (upload_dataset lib f c s))) = Ok body
    /\ field "dataset_info" "rows" body = Some (Json.of_nat (DF.len parsed))
    /\ field "dataset_info" "columns" body = Some (Json.of_nat (length parsed))
    /\ Json.get "transformations_applied" body = Some (JList []).
Proof.
  intros H.
  destruct (upload_dataset_accepted lib f c s H) as (df & Hread & Hrenders & E & _).
  rewrite E. exists df.
  destruct (get_dataset_body (upload_store (DF.replace_inf df) s) (DF.replace_inf df)
              eq_refl)
    as (body & Eb & Hrows & Hcols & _ & Hlog).
  exists body. rewrite Eb, Hrenders. split; [exact Hread|]. split; [reflexivity|].
  rewrite Hrows, Hcols, Hlog, len_replace_inf.
  unfold DF.replace_inf, DF.map_cells. rewrite length_map. repeat split.
Qed.

Lemma root_ok (s : State) : root s = (Ok (JDict [ ("status", JStr "healthy");
             ("message", JStr "ML Pipeline Builder API is running") ]), s).
Proof. reflexivity. Qed.

(** The four GET endpoints never write the session, whether they answer
    or refuse; the liveness endpoint always answers. *)
Theorem get_endpoints_are_read_only (s : State) :
  snd (root s) = s
  /\ (exists body, fst (root s) = Ok body /\ Json.get "status" body = Some (JStr "healthy"))
  /\ snd (get_dataset s) = s
  /\ snd (get_results lib s) = s
  /\ snd (get_pipeline_status s) = s.
Proof.
  split; [reflexivity|].
  split; [eexists; split; reflexivity|].
  split; [apply get_dataset_session|].
  split; [apply get_results_session|].
  destruct (get_pipeline_status_ok s) as [body E]. rewrite E. reflexivity.
Qed.

End Describing.

(** ** More on preprocessing *)

Section WorkingTable.

Context {Params : Type} (lib : Library Params).

Local Abbreviation State := (SessionState Params).

Lemma columns_setitem df col vals : DF.columns (DF.setitem df col vals) = DF.columns df.
Proof.
  unfold DF.columns, DF.setitem. rewrite map_map. apply map_ext.
  intros s. destruct (String.eqb (name s) col); reflexivity.
Qed.

Lemma columns_setitems df cols arr :
  DF.columns (DF.setitems df cols arr) = DF.columns df.
Proof.
  revert df arr. induction cols as [|c cols IH]; intros df arr; [reflexivity|].
  destruct arr as [|a arr]; [reflexivity|]. cbn [DF.setitems].
  rewrite IH. apply columns_setitem.
Qed.

Lemma setitems_other df cols arr col :
  In col df -> ~ In (name col) cols -> In col (DF.setitems df cols arr).
Proof.
  revert df arr. induction cols as [|c cols IH]; intros df arr Hin Hnot; [exact Hin|].
  destruct arr as [|a arr]; [exact Hin|]. cbn [DF.setitems].
  apply IH.
  - unfold DF.setitem. apply in_map_iff. exists col. split; [|exact Hin].
    destruct (String.eqb (name col) c) eqn:E; [|reflexivity].
    apply String.eqb_eq in E. exfalso. apply Hnot. left. symmetry. exact E.
  - intros H. apply Hnot. right. exact H.
Qed.

(** A preprocessing request leaves the session alone or replaces the
    requested columns of the working table and appends one message. *)
Lemma preprocess_data_written req (s : State) :
  snd (preprocess_data lib req s) = s \/
  exists df scaled msg,
    processed_df s = Some df
    /\ snd (preprocess_data lib req s) =
         append_transformation Params msg
           (set_processed_df Params
              (Some (DF.setitems df (pp_columns req) scaled)) s).
Proof.
  remember (preprocess_data lib req s) as out eqn:E.
  exec E; subst out; cbn [snd];
    solve [ left; reflexivity
          | right; do 3 eexists; split; reflexivity ].
Qed.

(** What an accepted preprocessing request has done. *)
Lemma preprocess_data_accepted req (s : State) :
  succeeds (preprocess_data lib req) s ->
  exists df selected scaled msg,
    processed_df s = Some df
    /\ DF.select df (pp_columns req) = Some selected
    /\ fit_transform lib (scaler_named (pp_method req)) selected = Some scaled
    /\ snd (preprocess_data lib req s) =
         append_transformation Params msg
           (set_processed_df Params
              (Some (DF.setitems df (pp_columns req) scaled)) s).
Proof.
  intros [b Hb]. revert Hb. unfold scaler_named.
  remember (preprocess_data lib req s) as out eqn:E.
  exec E; subst out; cbn [fst snd]; intros Hb; try discriminate Hb;
    do 4 eexists; (split; [reflexivity|]); (split; [eassumption|]);
    (split; [|reflexivity]);
    repeat match goal with
           | H : String.eqb _ _ = _ |- _ => rewrite H
           end; eassumption.
Qed.

(** An accepted preprocessing request replaces requested columns only: the
    working table keeps its labels in their order, every column whose label
    was not requested is unchanged, and the original table is not
    touched. *)
Theorem preprocess_replaces_requested_columns_only req (s : State) :
  succeeds (preprocess_data lib req) s ->
  exists df df',
    processed_df s = Some df
    /\ processed_df (snd (preprocess_data lib req s)) = Some df'
    /\ DF.columns df' = DF.columns df
    /\ (forall col, In col df -> ~ In (name col) (pp_columns req) -> In col df')
    /\ original_df (snd (preprocess_data lib req s)) = original_df s.
Proof.
  intros H.
  destruct (preprocess_data_accepted req s H)
    as (df & selected & scaled & msg & Hdf & _ & _ & E).
  exists df, (DF.setitems df (pp_columns req) scaled). rewrite E.
  split; [exact Hdf|]. split; [reflexivity|].
  split; [apply columns_setitems|]. split; [|reflexivity].
  intros col Hin Hnot. apply setitems_other; assumption.
Qed.

Lemma run_cons (r : Request) rs (s : State) :
  run lib (r :: rs) s = run lib rs (after lib r s).
Proof. reflexivity. Qed.

Lemma preprocess_count reqs (s : State) :
  all_succeed lib (map PostPreprocess reqs) s ->
  length (transformations_applied (run lib (map PostPreprocess reqs) s))
  = (length (transformations_applied s) + length reqs)%nat.
Proof.
  revert s. induction reqs as [|req reqs IH]; intros s H.
  - cbn. lia.
  - cbn [map] in *. destruct H as [Hreq Hrest]. rewrite run_cons.
    rewrite (IH _ Hrest). unfold after. cbn [serve] in *.
    destruct (preprocess_data_accepted req s Hreq)
      as (df & selected & scaled & msg & _ & _ & _ & E).
    rewrite E. cbn. rewrite length_app. cbn. lia.
Qed.

(** Every flag of the status report, read off the session. *)
Lemma status_report (s : State) :
  exists report,
    get_pipeline_status s = (Ok report, s)
    /\ flag "upload" report = is_not_None (original_df s)
    /\ flag "preprocess" report = (0 <? length (transformations_applied s))%nat
    /\ flag "split" report = is_not_None (X_train s)
    /\ flag "train" report = is_not_None (model s)
    /\ flag "results" report = is_not_None (model s)
    /\ field "details" "dataset_rows" report
       = Some (match original_df s with
               | Some df => Json.of_nat (DF.len df)
               | None => JInt 0
               end).
Proof.
  remember (get_pipeline_status s) as out eqn:E.
  unfold_handler E.
  match type of E with
  | context [Json.compliant ?j] =>
      rewrite (ltac:(compliance) : Json.compliant j = true) in E
  end.
  subst out. eexists. split; [reflexivity|]. unfold flag, field.
  cbn [Json.get find fst snd option_map String.eqb Ascii.eqb Bool.eqb].
  destruct (is_not_None (original_df s)), (is_not_None (X_train s)),
    (is_not_None (model s)), (0 <? length (transformations_applied s))%nat;
    repeat split.
Qed.

(** After an accepted upload and [n] accepted preprocessing requests,
    exactly [n] transformations are recorded, and the status report flags
    the preprocessing stage exactly when [n] is not zero. *)
Theorem transformations_are_counted f c reqs (s0 : State) :
  all_succeed lib (PostUpload f c :: map PostPreprocess reqs) s0 ->
  length (transformations_applied
            (run lib (PostUpload f c :: map PostPreprocess reqs) s0))
  = length reqs
  /\ exists report,
      fst (get_pipeline_status
             (run lib (PostUpload f c :: map PostPreprocess reqs) s0)) = Ok report
      /\ flag "preprocess" report = negb (length reqs =? 0)%nat.
Proof.
  intros [[b Hup] Hrest]. rewrite run_cons.
  assert (Hlen : length (transformations_applied
                           (run lib (map PostPreprocess reqs)
                              (after lib (PostUpload f c) s0))) = length reqs).
  { rewrite (preprocess_count reqs _ Hrest). unfold after. cbn [serve] in *.
    destruct (upload_dataset_accepted lib f c s0 (ex_intro _ b Hup))
      as (df & _ & _ & E & _).
    rewrite E. reflexivity. }
  split; [exact Hlen|].
  destruct (status_report (run lib (map PostPreprocess reqs)
                             (after lib (PostUpload f c) s0)))
    as (report & E & _ & Hpre & _).
  exists report. rewrite E. split; [reflexivity|]. rewrite Hpre, Hlen.
  destruct (length reqs); reflexivity.
Qed.

(** With valid numeric columns but a method other than [standardize] and
    [normalize], the request is refused and nothing is written; the error
    raised for the method is caught by the handler's own [except] clause
    and reaches the client wrapped in an "Error during preprocessing". *)
Theorem unknown_method_is_wrapped req (s : State) df :
  processed_df s = Some df ->
  (forall col, In col (pp_columns req) ->
               In col (DF.columns df) /\ column_is_number df col = true) ->
  pp_method req <> "standardize" -> pp_method req <> "normalize" ->
  preprocess_data lib req s
  = (Raise (HTTPException (ErrorDuringPreprocessing (HTTPException InvalidMethod))), s).
Proof.
  intros Hdf Hall Hs Hn.
  assert (Hinv : filter (fun c => negb (Str.mem c (DF.columns df))) (pp_columns req) = []).
  { apply filter_nil. intros col Hcol. apply negb_false_iff, mem_In, Hall, Hcol. }
  assert (Hnum : filter (fun c => negb (column_is_number df c)) (pp_columns req) = []).
  { apply filter_nil. intros col Hcol. apply negb_false_iff, Hall, Hcol. }
  apply String.eqb_neq in Hs. apply String.eqb_neq in Hn.
  remember (preprocess_data lib req s) as out eqn:E.
  unfold_handler E. rewrite Hdf in E. cbv beta iota in E.
  rewrite Hinv, Hnum in E. cbn [length Nat.eqb negb] in E. cbv beta iota in E.
  rewrite Hs, Hn in E. exact E.
Qed.

Lemma same_split_and_model_trans (s1 s2 s3 : State) :
  same_split_and_model s1 s2 -> same_split_and_model s2 s3 ->
  same_split_and_model s1 s3.
Proof.
  unfold same_split_and_model.
  intros (A1 & A2 & A3 & A4 & A5 & A6 & A7 & A8) (B1 & B2 & B3 & B4 & B5 & B6 & B7 & B8).
  repeat split; congruence.
Qed.

Lemma run_preprocessing_frame rs (s : State) :
  forallb is_preprocessing rs = true -> same_split_and_model s (run lib rs s).
Proof.
  revert s. induction rs as [|r rs IH]; intros s H.
  - apply same_split_and_model_refl.
  - cbn [forallb] in H. apply andb_true_iff in H. destruct H as [Hr Hrs].
    rewrite run_cons. apply (same_split_and_model_trans s (after lib r s)).
    + unfold after. destruct r; try discriminate Hr; cbn [serve].
      * apply preprocess_data_frame.
      * apply reset_preprocessing_frame.
    + apply IH. exact Hrs.
Qed.

(** An accepted upload discards all preprocessing: the session it leaves
    after any sequence of preprocessing and reset-preprocessing requests is
    the session it leaves without them. *)
Theorem upload_discards_preprocessing f c rs (s : State) :
  forallb is_preprocessing rs = true ->
  succeeds (upload_dataset lib f c) s ->
  after lib (PostUpload f c) (run lib rs s) = after lib (PostUpload f c) s.
Proof.
  intros Hrs [b Hb]. unfold after. cbn [serve].
  destruct (upload_dataset_checks lib f c s) as (Hext & Hnone & Hempty & Hfew & _).
  destruct (upload_dataset_checks lib f c (run lib rs s)) as (_ & _ & _ & _ & Hok).
  destruct (allowed_extension f) eqn:Ea;
    [|rewrite (Hext eq_refl) in Hb; discriminate Hb].
  destruct (read_file lib f c) as [df|] eqn:Er;
    [|rewrite (Hnone eq_refl eq_refl) in Hb; discriminate Hb].
  destruct (DF.empty df) eqn:Ee;
    [rewrite (Hempty df eq_refl eq_refl Ee) in Hb; discriminate Hb|].
  destruct (length (DF.columns df) <? 2)%nat eqn:El;
    [rewrite (Hfew df eq_refl eq_refl Ee El) in Hb; discriminate Hb|].
  destruct (Hok df eq_refl eq_refl Ee El) as (r2 & E2 & _).
  destruct (upload_dataset_checks lib f c s) as (_ & _ & _ & _ & Hok1).
  rewrite Ea, Er in Hok1.
  destruct (Hok1 df eq_refl eq_refl Ee El) as (r1 & E1 & _).
  rewrite E1, E2. cbn [snd]. unfold upload_store.
  destruct (run_preprocessing_frame rs s Hrs) as (_ & _ & _ & _ & Ht & Hf & _ & Hn).
  rewrite Ht, Hf, Hn. reflexivity.
Qed.


End WorkingTable.

(** ** More on splitting, training and results *)

Section LaterStages.

Context {Params : Type} (lib : Library Params).

Local Abbreviation State := (SessionState Params).

Lemma columns_drop df target :
  DF.columns (DF.drop df target)
  = filter (fun c => negb (String.eqb c target)) (DF.columns df).
Proof.
  unfold DF.columns, DF.drop. induction df as [|col df IH]; [reflexivity|].
  cbn [filter map]. destruct (String.eqb (name col) target); cbn [negb map];
    rewrite IH; reflexivity.
Qed.

Lemma getitem_In df col s : DF.getitem df col = Some s -> In col (DF.columns df).
Proof.
  unfold DF.getitem. intros H. apply find_some in H. destruct H as [Hin E].
  apply String.eqb_eq in E. subst col. unfold DF.columns. apply in_map. exact Hin.
Qed.

(** An accepted split has passed both checks; it stores the requested
    target and, as feature labels, the labels of the working table without
    the target, in their order; it clears the model and its name and leaves
    the tables and the recorded transformations alone. *)
Theorem split_stores_features_without_target req (s : State) :
  succeeds (split_data lib req) s ->
  exists df,
    processed_df s = Some df
    /\ In (sp_target_column req) (DF.columns df)
    /\ within 0.1 0.5 (sp_test_size req)
    /\ target_column (snd (split_data lib req s)) = Some (sp_target_column req)
    /\ feature_columns (snd (split_data lib req s))
       = Some (filter (fun c => negb (String.eqb c (sp_target_column req)))
                 (DF.columns df))
    /\ model (snd (split_data lib req s)) = None
    /\ model_name (snd (split_data lib req s)) = None
    /\ original_df (snd (split_data lib req s)) = original_df s
    /\ processed_df (snd (split_data lib req s)) = processed_df s
    /\ transformations_applied (snd (split_data lib req s)) = transformations_applied s.
Proof.
  intros [body Hb].
  destruct (split_data_accepted lib req s body Hb)
    as (df & y & X_tr & X_te & y_tr & y_te & Hdf & Hy & _ & E).
  exists df. split; [exact Hdf|].
  assert (Hin : In (sp_target_column req) (DF.columns df))
    by (apply (getitem_In df _ y Hy)).
  split; [exact Hin|]. split.
  - apply test_size_ok_within.
    destruct (test_size_ok (sp_test_size req)) eqn:Hts; [reflexivity|].
    destruct (split_data_checks lib req s df Hdf) as (_ & Hsize & _).
    apply mem_In in Hin. rewrite (Hsize Hin Hts) in Hb. discriminate Hb.
  - rewrite E. cbn. rewrite columns_drop. repeat split.
Qed.

(** A split that writes needs a working table. *)
Lemma split_data_needs_table req (s : State) :
  snd (split_data lib req s) = s
  \/ (processed_df s <> None
      /\ exists X_tr X_te y_tr y_te features,
           snd (split_data lib req s) =
             split_store X_tr X_te y_tr y_te (sp_target_column req) features s).
Proof.
  remember (split_data lib req s) as out eqn:E.
  exec E; subst out;
    solve [ left; reflexivity
          | right; split; [discriminate | do 5 eexists; reflexivity] ].
Qed.

(** After an accepted split no model is left: [get_results] answers with a
    precondition error, and the status report flags the split but neither
    training nor results. *)
Theorem split_invalidates_model req (s : State) :
  succeeds (split_data lib req) s ->
  fails_with PreconditionError (get_results lib) (snd (split_data lib req s))
  /\ exists report,
      fst (get_pipeline_status (snd (split_data lib req s))) = Ok report
      /\ flag "split" report = true
      /\ flag "train" report = false
      /\ flag "results" report = false.
Proof.
  intros [body Hb].
  destruct (split_data_accepted lib req s body Hb)
    as (df & y & X_tr & X_te & y_tr & y_te & _ & _ & _ & E).
  rewrite E. split.
  - unfold fails_with. remember (get_results lib _) as out eqn:Eo.
    unfold_handler Eo. cbn [model split_store] in Eo. subst out.
    eexists. split; reflexivity.
  - destruct (status_report
                (split_store X_tr X_te y_tr y_te (sp_target_column req)
                   (DF.columns (DF.drop df (sp_target_column req))) s))
      as (report & Er & _ & _ & Hs & Ht & Hr & _).
    exists report. rewrite Er. split; [reflexivity|].
    rewrite Hs, Ht, Hr. repeat split.
Qed.

(** After an accepted upload the later stages are gone: training and
    results are refused with a precondition error, and the status report
    flags the upload and nothing else. *)
Theorem upload_invalidates_later_stages f c treq (s : State) :
  succeeds (upload_dataset lib f c) s ->
  fails_with PreconditionError (train_model lib treq) (snd (upload_dataset lib f c s))
  /\ fails_with PreconditionError (get_results lib) (snd (upload_dataset lib f c s))
  /\ exists report,
      fst (get_pipeline_status (snd (upload_dataset lib f c s))) = Ok report
      /\ flag "upload" report = true
      /\ flag "preprocess" report = false
      /\ flag "split" report = false
      /\ flag "train" report = false
      /\ flag "results" report = false.
Proof.
  intros H.
  destruct (upload_dataset_accepted lib f c s H) as (df & _ & _ & E & _).
  rewrite E.
  split; [|split].
  - unfold fails_with. remember (train_model lib treq _) as out eqn:Eo.
    unfold_handler Eo. cbn [X_train upload_store] in Eo. subst out.
    eexists. split; reflexivity.
  - unfold fails_with. remember (get_results lib _) as out eqn:Eo.
    unfold_handler Eo. cbn [model upload_store] in Eo. subst out.
    eexists. split; reflexivity.
  - destruct (status_report (upload_store (DF.replace_inf df) s))
      as (report & Er & Hu & Hp & Hs & Ht & Hr & _).
    exists report. rewrite Er. split; [reflexivity|].
    rewrite Hu, Hp, Hs, Ht, Hr. repeat split.
Qed.

(** What an accepted training request has done. *)
Lemma train_model_accepted req (s : State) :
  succeeds (train_model lib req) s ->
  exists est fitted X y,
    X_train s = Some X /\ y_train s = Some y /\ fit lib est X y = Some fitted
    /\ ((tr_model_type req = "logistic_regression" /\ est = LogisticRegression)
        \/ (tr_model_type req = "decision_tree" /\ est = DecisionTreeClassifier))
    /\ snd (train_model lib req s) =
         set_model_name Params (Some (display_name est))
           (set_model Params (Some (mkModel est fitted)) s).
Proof.
  intros [b Hb]. revert Hb.
  remember (train_model lib req s) as out eqn:E.
  exec E; subst out; cbn [fst snd]; intros Hb; try discriminate Hb;
    do 4 eexists; (split; [reflexivity|]); (split; [reflexivity|]);
    (split; [eassumption|]); (split; [|reflexivity]).
  - left. split; [apply String.eqb_eq; assumption | reflexivity].
  - right. split; [apply String.eqb_eq; assumption | reflexivity].
Qed.

(** An accepted training request names one of the two estimators; it
    stores the model fitted by that estimator on the training part of the
    split, under the estimator's display name, and writes no other key. *)
Theorem train_stores_chosen_estimator req (s : State) :
  succeeds (train_model lib req) s ->
  exists m,
    model (snd (train_model lib req s)) = Some m
    /\ model_name (snd (train_model lib req s)) = Some (display_name (estimator m))
    /\ ((tr_model_type req = "logistic_regression"
         /\ estimator m = LogisticRegression)
        \/ (tr_model_type req = "decision_tree"
            /\ estimator m = DecisionTreeClassifier))
    /\ fitted_on_current_split lib (snd (train_model lib req s)) m
    /\ same_but_model s (snd (train_model lib req s)).
Proof.
  intros H.
  destruct (train_model_accepted req s H)
    as (est & fitted & X & y & HX & Hy & Hfit & Hchoice & E).
  exists (mkModel est fitted). rewrite E.
  split; [reflexivity|]. split; [reflexivity|]. split; [exact Hchoice|]. split.
  - exists X, y. repeat split; assumption.
  - unfold same_but_model. repeat split.
Qed.

(** With a split in the session, a model type other than
    [logistic_regression] and [decision_tree] is refused and nothing is
    stored; the error reaches the client wrapped in an "Error during
    training".  An estimator that raises while fitting is an operation
    error and stores nothing either. *)
Theorem train_refusals req (s : State) X y :
  X_train s = Some X -> y_train s = Some y ->
  (tr_model_type req <> "logistic_regression" ->
   tr_model_type req <> "decision_tree" ->
   train_model lib req s
   = (Raise (HTTPException (ErrorDuringTraining (HTTPException InvalidModelType))), s))
  /\ (fit lib LogisticRegression X y = None ->
      tr_model_type req = "logistic_regression" ->
      fails_with OperationError (train_model lib req) s
      /\ snd (train_model lib req s) = s)
  /\ (fit lib DecisionTreeClassifier X y = None ->
      tr_model_type req = "decision_tree" ->
      fails_with OperationError (train_model lib req) s
      /\ snd (train_model lib req s) = s).
Proof.
  intros HX Hy. unfold fails_with.
  remember (train_model lib req s) as out eqn:E.
  unfold_handler E. rewrite HX in E. cbv beta iota in E. rewrite Hy in E.
  split; [|split].
  - intros H1 H2. apply String.eqb_neq in H1. apply String.eqb_neq in H2.
    rewrite H1, H2 in E. exact E.
  - intros Hfit Ht. rewrite Ht in E.
    cbn [String.eqb Ascii.eqb Bool.eqb fst snd] in E. cbv beta iota in E.
    rewrite Hfit in E. subst out. split; [|reflexivity].
    eexists. split; reflexivity.
  - intros Hfit Ht. rewrite Ht in E.
    cbn [String.eqb Ascii.eqb Bool.eqb fst snd] in E. cbv beta iota in E.
    rewrite Hfit in E. subst out. split; [|reflexivity].
    eexists. split; reflexivity.
Qed.

(** With a model in the session, [get_results] answers with the results
    or with an operation error: it never blames the request or a missing
    stage, and when it answers, it names the stored model. *)
Theorem get_results_outcomes (s : State) m :
  model s = Some m ->
  (exists body,
      fst (get_results lib s) = Ok body
      /\ field "results" "model_name" body = Some (Json.opt JStr (model_name s)))
  \/ fails_with OperationError (get_results lib) s.
Proof.
  intros Hm. unfold fails_with.
  remember (get_results lib s) as out eqn:E.
  unfold_handler E. rewrite Hm in E. cbv beta iota in E.
  repeat exec_step E; subst out; cbn [fst];
    solve [ left; eexists; split; reflexivity
          | right; eexists; split; reflexivity ].
Qed.

Lemma encode_features_fixed X :
  (forall col, In col X -> is_object (dtype col) = false) -> encode_features X = X.
Proof.
  intros H. unfold encode_features. rewrite <- (map_id X) at 2.
  apply map_ext_in. intros col Hcol. rewrite (H col Hcol). reflexivity.
Qed.

(** The encoding of the features keeps the labels, their order and the
    number of entries of every column, leaves no column of dtype [object],
    and encoding twice is encoding once. *)
Theorem encode_features_is_idempotent (X : DataFrame) :
  DF.columns (encode_features X) = DF.columns X
  /\ map (fun col => length (values col)) (encode_features X)
     = map (fun col => length (values col)) X
  /\ (forall col, In col (encode_features X) -> is_object (dtype col) = false)
  /\ encode_features (encode_features X) = encode_features X.
Proof.
  assert (Hno : forall col, In col (encode_features X) -> is_object (dtype col) = false).
  { intros col Hcol. unfold encode_features in Hcol. apply in_map_iff in Hcol.
    destruct Hcol as [c [<- _]]. destruct (is_object (dtype c)) eqn:E;
      [reflexivity | exact E]. }
  split; [|split; [|split]].
  - unfold DF.columns, encode_features. rewrite map_map. apply map_ext.
    intros col. destruct (is_object (dtype col)); reflexivity.
  - unfold encode_features. rewrite map_map. apply map_ext.
    intros col. destruct (is_object (dtype col)); [|reflexivity].
    cbn. rewrite length_map. apply codes_length.
  - exact Hno.
  - apply encode_features_fixed. exact Hno.
Qed.

End LaterStages.

(** ** The stages of reachable sessions *)

Section Stages.

Context {Params : Type} (lib : Library Params).

Local Abbreviation State := (SessionState Params).

Lemma stage_invariant_step (r : Request) (s : State) :
  stage_invariant s -> stage_invariant (after lib r s).
Proof.
  intros Inv. unfold after. destruct r as [f c| |req| |req|req| | |]; cbn [serve].
  - destruct (upload_dataset_cases lib f c s) as [[d E] | (df & r & _ & _ & E & _)];
      rewrite E; [exact Inv | reflexivity].
  - rewrite get_dataset_session. exact Inv.
  - destruct (preprocess_data_written lib req s)
      as [E | (df & scaled & msg & Hdf & E)]; rewrite E; [exact Inv|].
    unfold stage_invariant in *. cbn.
    rewrite Hdf in Inv. destruct (original_df s) as [o|]; [|contradiction].
    rewrite columns_setitems. exact Inv.
  - destruct (reset_preprocessing_cases s) as [[_ E] | (df & r & Ho & E & _)];
      rewrite E; [exact Inv|].
    unfold stage_invariant. cbn. rewrite Ho. reflexivity.
  - destruct (split_data_needs_table lib req s)
      as [E | (Hdf & X_tr & X_te & y_tr & y_te & features & E)];
      rewrite E; [exact Inv|].
    unfold stage_invariant in *. cbn.
    destruct (original_df s), (processed_df s); try exact Inv. contradiction.
  - destruct (train_model_cases lib req s)
      as [[d E] | (est & fitted & X & y & body & _ & _ & _ & E)];
      rewrite E; exact Inv.
  - rewrite get_results_session. exact Inv.
  - destruct (get_pipeline_status_ok s) as [body E]. rewrite E. exact Inv.
  - rewrite reset_pipeline_session. split; reflexivity.
Qed.

Lemma stage_invariant_reachable (s : State) : reachable lib s -> stage_invariant s.
Proof.
  induction 1 as [|s r _ IH].
  - split; reflexivity.
  - apply stage_invariant_step. exact IH.
Qed.

(** In every session reached from the initial one, the original and the
    working table are stored together, and the working table has the
    labels of the original one, in the same order. *)
Theorem working_table_keeps_labels (s : State) :
  reachable lib s ->
  (original_df s = None <-> processed_df s = None)
  /\ (forall original working,
         original_df s = Some original -> processed_df s = Some working ->
         DF.columns working = DF.columns original).
Proof.
  intros Hreach. pose proof (stage_invariant_reachable s Hreach) as Inv.
  unfold stage_invariant in Inv.
  destruct (original_df s) as [o|], (processed_df s) as [w|]; try contradiction.
  - split; [split; discriminate|]. intros o' w' Ho Hw.
    injection Ho as <-. injection Hw as <-. exact Inv.
  - split; [split; reflexivity|]. intros o' w' Ho. discriminate Ho.
Qed.

(** In every session reached from the initial one, the stage flags of the
    status report are consistent: [results] implies [train], [train]
    implies [split], [split] implies [upload], and [preprocess] implies
    [upload]. *)
Theorem status_flags_are_consistent (s : State) :
  reachable lib s ->
  exists report,
    fst (get_pipeline_status s) = Ok report
    /\ (flag "results" report = true -> flag "train" report = true)
    /\ (flag "train" report = true -> flag "split" report = true)
    /\ (flag "split" report = true -> flag "upload" report = true)
    /\ (flag "preprocess" report = true -> flag "upload" report = true).
Proof.
  intros Hreach.
  pose proof (stage_invariant_reachable s Hreach) as Stage.
  pose proof (invariant_reachable lib s Hreach) as [_ Model].
  destruct (status_report s) as (report & E & Hu & Hp & Hs & Ht & Hr & _).
  exists report. rewrite E. split; [reflexivity|].
  rewrite Hu, Hp, Hs, Ht, Hr. unfold stage_invariant in Stage.
  split; [intros H; exact H|]. split; [|split].
  - destruct (model s) as [m|]; [|discriminate].
    intros _. destruct (Model m eq_refl) as [(HX & _) _].
    destruct (X_train s); [reflexivity | contradiction].
  - destruct (original_df s); [reflexivity|].
    destruct (processed_df s); [contradiction|].
    destruct Stage as [-> _]. discriminate.
  - destruct (original_df s); [reflexivity|].
    destruct (processed_df s); [contradiction|].
    destruct Stage as [_ ->]. discriminate.
Qed.

(** [reset_pipeline] always answers and leaves the initial session, from
    whatever session it is called; the status report then flags no stage
    and counts no row, and every request that needs a stage is refused
    with a precondition error. *)
Theorem reset_pipeline_clears_everything (s : State) preq sreq treq :
  (exists body, reset_pipeline s = (Ok body, initial_state))
  /\ (exists report,
         fst (get_pipeline_status (snd (reset_pipeline s))) = Ok report
         /\ flag "upload" report = false
         /\ flag "preprocess" report = false
         /\ flag "split" report = false
         /\ flag "train" report = false
         /\ flag "results" report = false
         /\ field "details" "dataset_rows" report = Some (JInt 0))
  /\ fails_with PreconditionError get_dataset (snd (reset_pipeline s))
  /\ fails_with PreconditionError (preprocess_data lib preq) (snd (reset_pipeline s))
  /\ fails_with PreconditionError reset_preprocessing (snd (reset_pipeline s))
  /\ fails_with PreconditionError (split_data lib sreq) (snd (reset_pipeline s))
  /\ fails_with PreconditionError (train_model lib treq) (snd (reset_pipeline s))
  /\ fails_with PreconditionError (get_results lib) (snd (reset_pipeline s)).
Proof.
  rewrite reset_pipeline_session. unfold fails_with.
  split.
  { remember (reset_pipeline s) as out eqn:E. exec E; subst out.
    eexists. reflexivity. }
  split.
  { eexists. repeat split. }
  repeat split; eexists; split; reflexivity.
Qed.

End Stages.


(** ** Further instances *)

Section MoreInstances.

Import Demo Example.


(** A text file is refused before it is read. *)
Lemma upload_refusals_witness :
  allowed_extension "notes.txt" = false
  /\ fails_with ValidationError (upload_dataset L "notes.txt" csv) trained
  /\ snd (upload_dataset L "notes.txt" csv trained) = trained.
Proof.
  split; [reflexivity|].
  apply (proj1 (upload_refusals L "notes.txt" csv trained)). reflexivity.
Defined.

(** The two infinities of [readings] are gone after the upload, which is
    answered with an error: the [nan] that replaces them is not rendered. *)
Lemma upload_stores_table_without_infinities_witness :
  fst (upload_dataset R "readings.xlsx" csv initial_state)
  = Raise (HTTPException (ErrorProcessingFile (Exception json_dumps)))
  /\ exists stored,
      original_df (snd (upload_dataset R "readings.xlsx" csv initial_state))
      = Some stored
      /\ processed_df (snd (upload_dataset R "readings.xlsx" csv initial_state))
         = Some stored
      /\ infinities_replaced readings stored
      /\ no_infinity stored.
Proof.
  split; [reflexivity|].
  apply (upload_stores_table_without_infinities R "readings.xlsx" csv
           initial_state readings).
  - reflexivity.
  - reflexivity.
  - reflexivity.
  - cbn. lia.
Defined.


Lemma get_dataset_after_upload_witness :
  succeeds (upload_dataset L "patients.csv" csv) initial_state
  /\ exists body,
      fst (get_dataset (snd (upload_dataset L "patients.csv" csv initial_state)))
      = Ok body
      /\ field "dataset_info" "rows" body = Some (JInt 4).
Proof.
  assert (S : succeeds (upload_dataset L "patients.csv" csv) initial_state).
  { eexists. reflexivity. }
  split; [exact S|].
  destruct (get_dataset_after_upload L "patients.csv" csv initial_state S)
    as (parsed & body & Hread & Hb & Hrows & _).
  exists body. split; [exact Hb|]. rewrite Hrows.
  injection Hread as <-. reflexivity.
Defined.

(** Standardising [age] leaves the other columns of [patients] alone. *)
Lemma preprocess_replaces_requested_columns_only_witness :
  succeeds (preprocess_data L (standardize ["age"])) uploaded
  /\ exists df',
      processed_df (snd (preprocess_data L (standardize ["age"]) uploaded)) = Some df'
      /\ DF.columns df' = DF.columns patients.
Proof.
  assert (S : succeeds (preprocess_data L (standardize ["age"])) uploaded).
  { eexists. reflexivity. }
  split; [exact S|].
  destruct (preprocess_replaces_requested_columns_only L (standardize ["age"])
              uploaded S)
    as (df & df' & Hdf & Hdf' & Hcols & _).
  exists df'. split; [exact Hdf'|]. rewrite Hcols.
  injection Hdf as <-. reflexivity.
Defined.

(** Two accepted preprocessing requests are counted as two. *)
Lemma transformations_are_counted_witness :
  all_succeed L
    (PostUpload "patients.csv" csv
     :: map PostPreprocess [standardize ["age"]; standardize ["age"; "label"]])
    initial_state
  /\ length (transformations_applied
               (run L (PostUpload "patients.csv" csv
                       :: map PostPreprocess
                            [standardize ["age"]; standardize ["age"; "label"]])
                  initial_state))
     = 2%nat.
Proof.
  assert (H : all_succeed L
                (PostUpload "patients.csv" csv
                 :: map PostPreprocess
                      [standardize ["age"]; standardize ["age"; "label"]])
                initial_state).
  { cbn [all_succeed map]. repeat split; eexists; reflexivity. }
  split; [exact H|].
  apply (proj1 (transformations_are_counted L "patients.csv" csv
                  [standardize ["age"]; standardize ["age"; "label"]]
                  initial_state H)).
Defined.

(** The method [scale] is refused inside an "Error during preprocessing". *)
Lemma unknown_method_is_wrapped_witness :
  preprocess_data L (mkPreprocessRequest ["age"] "scale") uploaded
  = (Raise (HTTPException (ErrorDuringPreprocessing (HTTPException InvalidMethod))),
     uploaded).
Proof.
  apply (unknown_method_is_wrapped L (mkPreprocessRequest ["age"] "scale")
           uploaded patients eq_refl).
  - intros col [<- | []]. split; [cbn; tauto | reflexivity].
  - discriminate.
  - discriminate.
Defined.

(** Uploading after a standardisation and a reset is uploading at once. *)
Lemma upload_discards_preprocessing_witness :
  after L (PostUpload "patients.csv" csv)
    (run L [PostPreprocess (standardize ["age"]); PostResetPreprocessing] trained)
  = after L (PostUpload "patients.csv" csv) trained.
Proof.
  apply (upload_discards_preprocessing L "patients.csv" csv
           [PostPreprocess (standardize ["age"]); PostResetPreprocessing] trained).
  - reflexivity.
  - eexists. reflexivity.
Defined.


(** The split of [patients] on [label] keeps three feature labels. *)
Lemma split_stores_features_without_target_witness :
  succeeds (split_data L (halves "label")) uploaded
  /\ feature_columns (snd (split_data L (halves "label") uploaded))
     = Some ["age"; "smoker"; "city"].
Proof.
  assert (S : succeeds (split_data L (halves "label")) uploaded).
  { eexists. reflexivity. }
  split; [exact S|].
  destruct (split_stores_features_without_target L (halves "label") uploaded S)
    as (df & Hdf & _ & _ & _ & Hf & _).
  rewrite Hf. injection Hdf as <-. reflexivity.
Defined.

(** Splitting again discards the decision tree of [trained]. *)
Lemma split_invalidates_model_witness :
  succeeds (split_data L (halves "label")) trained
  /\ fails_with PreconditionError (get_results L)
       (snd (split_data L (halves "label") trained)).
Proof.
  assert (S : succeeds (split_data L (halves "label")) trained).
  { eexists. reflexivity. }
  split; [exact S|].
  apply (proj1 (split_invalidates_model L (halves "label") trained S)).
Defined.

(** Uploading again makes training wait for a new split. *)
Lemma upload_invalidates_later_stages_witness :
  succeeds (upload_dataset L "patients.csv" csv) trained
  /\ fails_with PreconditionError (train_model L (mkTrainRequest "decision_tree"))
       (snd (upload_dataset L "patients.csv" csv trained)).
Proof.
  assert (S : succeeds (upload_dataset L "patients.csv" csv) trained).
  { eexists. reflexivity. }
  split; [exact S|].
  apply (proj1 (upload_invalidates_later_stages L "patients.csv" csv
                  (mkTrainRequest "decision_tree") trained S)).
Defined.

(** A logistic regression trained on the split of [patients]. *)
Lemma train_stores_chosen_estimator_witness :
  succeeds (train_model L (mkTrainRequest "logistic_regression")) split
  /\ model_name (snd (train_model L (mkTrainRequest "logistic_regression") split))
     = Some "Logistic Regression".
Proof.
  assert (S : succeeds (train_model L (mkTrainRequest "logistic_regression")) split).
  { eexists. reflexivity. }
  split; [exact S|].
  destruct (train_stores_chosen_estimator L (mkTrainRequest "logistic_regression")
              split S)
    as (m & _ & Hname & [[_ Hest] | [Habs _]] & _).
  - rewrite Hname, Hest. reflexivity.
  - discriminate Habs.
Defined.

(** The model type [svm] is refused inside an "Error during training". *)
Lemma train_refusals_witness :
  train_model L (mkTrainRequest "svm") split
  = (Raise (HTTPException (ErrorDuringTraining (HTTPException InvalidModelType))),
     split).
Proof.
  refine (proj1 (train_refusals L (mkTrainRequest "svm") split _ _ eq_refl eq_refl)
            _ _); discriminate.
Defined.

(** The results of [trained] name its decision tree. *)
Lemma get_results_outcomes_witness :
  model trained = Some (mkModel DecisionTreeClassifier [CInt 1; CInt 0])
  /\ ((exists body,
          fst (get_results L trained) = Ok body
          /\ field "results" "model_name" body
             = Some (Json.opt JStr (model_name trained)))
      \/ fails_with OperationError (get_results L) trained).
Proof.
  split; [reflexivity|].
  apply (get_results_outcomes L trained
           (mkModel DecisionTreeClassifier [CInt 1; CInt 0])).
  reflexivity.
Defined.

(** After a standardisation the working table still has the labels of
    [patients]. *)
Lemma working_table_keeps_labels_witness :
  reachable L (after L (PostPreprocess (standardize ["age"])) uploaded)
  /\ (original_df (after L (PostPreprocess (standardize ["age"])) uploaded) = None
      <-> processed_df (after L (PostPreprocess (standardize ["age"])) uploaded)
          = None).
Proof.
  assert (H : reachable L (after L (PostPreprocess (standardize ["age"])) uploaded)).
  { unfold uploaded. repeat apply reach_step. apply reach_init. }
  split; [exact H|].
  apply (proj1 (working_table_keeps_labels L _ H)).
Defined.

(** The flags of [trained] are consistent. *)
Lemma status_flags_are_consistent_witness :
  reachable L trained
  /\ exists report,
      fst (get_pipeline_status trained) = Ok report
      /\ (flag "split" report = true -> flag "upload" report = true).
Proof.
  assert (H : reachable L trained).
  { unfold trained, split, uploaded. repeat apply reach_step. apply reach_init. }
  split; [exact H|].
  destruct (status_flags_are_consistent L trained H)
    as (report & Hr & _ & _ & Hsplit & _).
  exists report. split; assumption.
Defined.

(** Training on the initial session is refused and changes nothing; the
    upload of [unlabelled] is refused after the session was written. *)
Lemma refused_request_keeps_session_witness :
  (fst (serve L (PostTrain (mkTrainRequest "decision_tree")) initial_state)
   = Raise (HTTPException DataNotSplit)
   /\ (after L (PostTrain (mkTrainRequest "decision_tree")) initial_state
       = initial_state
       \/ raised_after_writing (HTTPException DataNotSplit) = true))
  /\ (fst (serve U (PostUpload "unlabelled.csv" csv) initial_state)
      = Raise (HTTPException (ErrorProcessingFile (Exception json_dumps)))
      /\ (after U (PostUpload "unlabelled.csv" csv) initial_state = initial_state
          \/ raised_after_writing
               (HTTPException (ErrorProcessingFile (Exception json_dumps))) = true)).
Proof.
  split; (split; [reflexivity|]).
  - apply (refused_request_keeps_session L
             (PostTrain (mkTrainRequest "decision_tree")) initial_state
             (HTTPException DataNotSplit)).
    reflexivity.
  - apply (refused_request_keeps_session U
             (PostUpload "unlabelled.csv" csv) initial_state
             (HTTPException (ErrorProcessingFile (Exception json_dumps)))).
    reflexivity.
Defined.

End MoreInstances.
